(** * Cookie box quantity discount: the tiered discount decision engine

    A shallow embedding of [src/cart_lines_discounts_generate_run.js]
    (size classification, tier evaluation, message formatting and the cart
    aggregation loop) together with the properties stated about it.

    Conventions of the embedding.

    - A JavaScript string is a [string]: each [ascii] is one code unit in the
      range U+0000..U+00FF (Latin-1).  [toLowerCase], [trim] and [includes]
      below are the ECMAScript operations restricted to that range.
    - A JavaScript number is a rational [Q].  Every constant of the program
      is a whole number and every quantity is a GraphQL [Int], so the
      products and differences the program forms are integers far below
      2^53 and IEEE double arithmetic is exact on them.
    - An object used as a table is an association list in the order
      [Object.entries] enumerates it (declaration order for the keys used
      here); a property that is read with [?.] or [||] is an [option]. *)

From Stdlib Require Import ZArith QArith Qround Qabs List Bool Lia Lqa Permutation.
From Stdlib Require Import Strings.String Strings.Ascii Numbers.DecimalString.
Import ListNotations.

Local Open Scope string_scope.

(** ** String primitives *)

Module JsString.

(** Code units with a distinct lower-case form below U+0100: A-Z, and
    U+00C0..U+00DE except the multiplication sign U+00D7. *)
Definition is_upper (c : ascii) : bool :=
  let n := N_of_ascii c in
  ((65 <=? n) && (n <=? 90) ||
   (192 <=? n) && (n <=? 222) && negb (n =? 215))%N.

Definition lower_char (c : ascii) : ascii :=
  if is_upper c then ascii_of_N (N_of_ascii c + 32) else c.

(** [String.prototype.toLowerCase]. *)
Fixpoint toLowerCase (s : string) : string :=
  match s with
  | EmptyString => EmptyString
  | String c s' => String (lower_char c) (toLowerCase s')
  end.

(** White space and line terminators below U+0100:
    TAB, LF, VT, FF, CR, SPACE and NBSP. *)
Definition is_space (c : ascii) : bool :=
  let n := N_of_ascii c in
  ((9 <=? n) && (n <=? 13) || (n =? 32) || (n =? 160))%N.

Fixpoint trimStart (s : string) : string :=
  match s with
  | EmptyString => EmptyString
  | String c s' => if is_space c then trimStart s' else s
  end.

Fixpoint trimEnd (s : string) : string :=
  match s with
  | EmptyString => EmptyString
  | String c s' =>
      match trimEnd s' with
      | EmptyString => if is_space c then EmptyString else String c EmptyString
      | t => String c t
      end
  end.

(** [String.prototype.trim]. *)
Definition trim (s : string) : string := trimEnd (trimStart s).

(** [s.includes(kw)]: [kw] occurs in [s] at some position. *)
Fixpoint includes (s kw : string) : bool :=
  prefix kw s ||
  match s with
  | EmptyString => false
  | String _ s' => includes s' kw
  end.

(** Truthiness of a string value: every string but the empty one. *)
Definition truthy (s : string) : bool :=
  match s with
  | EmptyString => false
  | String _ _ => true
  end.

End JsString.
Import JsString.

(** ** Number primitives *)

Module JsNumber.

(** Decimal digits of a non-negative integer. *)
Definition digits (n : Z) : string :=
  NilZero.string_of_uint (N.to_uint (Z.to_N n)).

(** [String(q)] for an integer [q] (template-literal interpolation). *)
Definition toString (q : Z) : string :=
  if (q <? 0)%Z then "-" ++ digits (- q) else digits q.

Fixpoint zeros (k : nat) : string :=
  match k with
  | O => EmptyString
  | S k' => String "0" (zeros k')
  end.

(** The integer [n] for which [n / 10^f - x] is as close to zero as
    possible, the larger one when there are two. *)
Definition nearest (f : nat) (x : Q) : Z :=
  Qfloor (x * inject_Z (10 ^ Z.of_nat f) + (1 # 2)).

(** [Number.prototype.toFixed(f)], for [|x| < 10^21] (beyond that the
    method falls back to exponential notation, which no value of this
    program reaches). *)
Definition toFixed (f : nat) (x : Q) : string :=
  let neg := (Qnum x <? 0)%Z in
  let x := if neg then Qopp x else x in
  let m := digits (nearest f x) in
  let m :=
    match f with
    | O => m
    | _ =>
        let k := String.length m in
        let m := if (k <=? f)%nat then zeros (f + 1 - k) ++ m else m in
        let k := String.length m in
        substring 0 (k - f) m ++ "." ++ substring (k - f) f m
    end in
  (if neg then "-" else "") ++ m.

End JsNumber.
Import JsNumber.

(** ** Data model *)

(** The function input, as selected by the GraphQL input query. *)
Module Input.

(** [boxSize: metafield(namespace: "custom", key: "box_size") { value }] *)
Record Metafield := { value : string }.

(** [merchandise { __typename ... on ProductVariant { title sku boxSize } }];
    a merchandise that is not a product variant carries only its type
    name. *)
Record Merchandise := {
  __typename : string;
  title : option string;
  sku : option string;
  boxSize : option Metafield
}.

Record CartLine := {
  id : string;
  quantity : Z;
  merchandise : option Merchandise
}.

Record Cart := { lines : list CartLine }.

Record Discount := { discountClasses : option (list string) }.

Record t := {
  cart : option Cart;
  discount : option Discount
}.

End Input.

(** The function result. *)
Module Output.

Record CartLineTarget := { id : string }.
Record Target := { cartLine : CartLineTarget }.
Record FixedAmount := { amount : string }.
Record Value := { fixedAmount : FixedAmount }.

Record Candidate := {
  targets : list Target;
  message : string;
  value : Value
}.

Record ProductDiscountsAdd := {
  selectionStrategy : string;
  candidates : list Candidate
}.

Record Operation := { productDiscountsAdd : ProductDiscountsAdd }.

Record t := { operations : list Operation }.

End Output.

(** One entry of [DISCOUNT_CONFIG]: the unit price and the bundle totals,
    keyed by quantity. *)
Record PricingTier := {
  unitPrice : Q;
  tiers : list (Z * Q)
}.

(** The object [calculateDiscount] returns when a discount applies. *)
Record DiscountInfo := {
  amount : Q;
  fullPrice : Q;
  tierPrice : Q;
  savings : Q
}.

(** ** Configuration *)

Definition DISCOUNT_CONFIG : list (string * PricingTier) :=
  [ ("500g", {| unitPrice := 59; tiers := [(6%Z, 330%Q); (12%Z, 600%Q)] |});
    ("1kg",  {| unitPrice := 99; tiers := [(6%Z, 540%Q); (12%Z, 1020%Q)] |}) ].

Definition SIZE_KEYWORDS : list (string * list string) :=
  [ ("500g", ["500g"; "500 g"; "500gr"; "0.5kg"]);
    ("1kg",  ["1kg"; "1 kg"; "1000g"; "1000 g"]) ].

(** ** The engine, over an arbitrary configuration *)

(** Own-property lookup [table[key]] on a string-keyed object.  The keys
    looked up are size labels; the names of the properties every object
    inherits ([constructor], [toString], ...) are not size labels and lie
    outside the domain of the model. *)
Fixpoint lookup {A : Type} (table : list (string * A)) (key : string) : option A :=
  match table with
  | [] => None
  | (k, v) :: rest => if (k =? key)%string then Some v else lookup rest key
  end.

(** [tiers[quantity]] for an integer [quantity]: the property key is the
    decimal numeral of the quantity, so two integers name the same property
    exactly when they are equal. *)
Fixpoint tierLookup (tiers : list (Z * Q)) (quantity : Z) : option Q :=
  match tiers with
  | [] => None
  | (k, v) :: rest => if (k =? quantity)%Z then Some v else tierLookup rest quantity
  end.

Section Engine.

Variable config : list (string * PricingTier).
Variable keywordTable : list (string * list string).

(** [keywords.some(kw => text.includes(kw.toLowerCase()))] *)
Definition matchesAny (text : string) (keywords : list string) : bool :=
  existsb (fun kw => includes text (toLowerCase kw)) keywords.

(** The loop
    [for (const [size, keywords] of Object.entries(SIZE_KEYWORDS))
       if (keywords.some(...)) return size;]
    which the source runs once per signal; [None] when it falls through. *)
Fixpoint firstMatch (entries : list (string * list string)) (text : string)
  : option string :=
  match entries with
  | [] => None
  | (size, keywords) :: rest =>
      if matchesAny text keywords then Some size else firstMatch rest text
  end.

Definition getSizeFromVariantIn (merchandise : Input.Merchandise) : option string :=
  let fromMeta :=
    match Input.boxSize merchandise with
    | Some mf =>
        if truthy (Input.value mf)
        then firstMatch keywordTable (trim (toLowerCase (Input.value mf)))
        else None
    | None => None
    end in
  match fromMeta with
  | Some size => Some size
  | None =>
      let title := toLowerCase (match Input.title merchandise with
                                | Some t => t
                                | None => ""
                                end) in
      match firstMatch keywordTable title with
      | Some size => Some size
      | None =>
          let sku := toLowerCase (match Input.sku merchandise with
                                  | Some s => s
                                  | None => ""
                                  end) in
          firstMatch keywordTable sku
      end
  end.

Definition calculateDiscountIn (size : string) (quantity : Z) : option DiscountInfo :=
  match lookup config size with
  | None => None
  | Some cfg =>
      match tierLookup (tiers cfg) quantity with
      | None => None
      | Some tierPrice =>
          let fullPrice := unitPrice cfg * inject_Z quantity in
          let discountAmount := fullPrice - tierPrice in
          if Qle_bool discountAmount 0 then None
          else Some {| amount := discountAmount;
                       fullPrice := fullPrice;
                       tierPrice := tierPrice;
                       savings := discountAmount |}
      end
  end.

Definition getDiscountMessage (quantity : Z) (size : string) (savings : Q) : string :=
  toString quantity ++ "x " ++ size ++ " Bundle Deal - Save R" ++ toFixed 0 savings.

(** The candidate pushed for a line that receives a discount. *)
Definition candidateFor (line : Input.CartLine) (size : string) (discount : DiscountInfo)
  : Output.Candidate :=
  {| Output.targets := [ {| Output.cartLine := {| Output.id := Input.id line |} |} ];
     Output.message := getDiscountMessage (Input.quantity line) size (savings discount);
     Output.value :=
       {| Output.fixedAmount := {| Output.amount := toFixed 2 (amount discount) |} |} |}.

(** One iteration of the loop over the cart lines: [candidates] is the
    array collected so far, the result is the array after this line
    ([continue] leaves it as it is, [push] appends at the end). *)
Definition processLine (candidates : list Output.Candidate) (line : Input.CartLine)
  : list Output.Candidate :=
  match Input.merchandise line with
  | None => candidates
  | Some merchandise =>
      if negb (Input.__typename merchandise =? "ProductVariant")%string
      then candidates
      else
        let quantity := Input.quantity line in
        match getSizeFromVariantIn merchandise with
        | None => candidates
        | Some size =>
            if negb (truthy size) then candidates
            else
              match calculateDiscountIn size quantity with
              | Some discount => candidates ++ [candidateFor line size discount]
              | None => candidates
              end
        end
  end.

(** [input.discount?.discountClasses?.includes('PRODUCT')], with
    [undefined] read as false. *)
Definition hasProductDiscountClass (input : Input.t) : bool :=
  match Input.discount input with
  | None => false
  | Some d =>
      match Input.discountClasses d with
      | None => false
      | Some classes => existsb (fun c => (c =? "PRODUCT")%string) classes
      end
  end.

(** [input.cart?.lines || []] *)
Definition cartLines (input : Input.t) : list Input.CartLine :=
  match Input.cart input with
  | None => []
  | Some c => Input.lines c
  end.

Definition cart_lines_discounts_generate_run_in (input : Input.t) : Output.t :=
  if negb (hasProductDiscountClass input) then {| Output.operations := [] |}
  else
    let candidates := fold_left processLine (cartLines input) [] in
    match candidates with
    | [] => {| Output.operations := [] |}
    | _ =>
        {| Output.operations :=
             [ {| Output.productDiscountsAdd :=
                    {| Output.selectionStrategy := "ALL";
                       Output.candidates := candidates |} |} ] |}
    end.

End Engine.

(** ** The program: the engine at the configuration of the source *)

Definition getSizeFromVariant : Input.Merchandise -> option string :=
  getSizeFromVariantIn SIZE_KEYWORDS.

Definition calculateDiscount : string -> Z -> option DiscountInfo :=
  calculateDiscountIn DISCOUNT_CONFIG.

Definition cart_lines_discounts_generate_run : Input.t -> Output.t :=
  cart_lines_discounts_generate_run_in DISCOUNT_CONFIG SIZE_KEYWORDS.

(** ** Notions used to state the properties *)

(** The quantities listed in the tier table of a category (none when the
    category has no configuration). *)
Definition tierKeys (config : list (string * PricingTier)) (size : string) : list Z :=
  match lookup config size with
  | Some cfg => map fst (tiers cfg)
  | None => []
  end.

(** A text matches a category when it contains one of the category's
    keywords. *)
Definition matchesCategory (text size : string) : bool :=
  match lookup SIZE_KEYWORDS size with
  | Some keywords => matchesAny text keywords
  | None => false
  end.

(** The normalised text of each of the three signals, as the source forms
    it before matching; the tag is consulted only when its value is a
    non-empty string. *)
Definition tagText (m : Input.Merchandise) : option string :=
  match Input.boxSize m with
  | Some mf => if truthy (Input.value mf)
               then Some (trim (toLowerCase (Input.value mf))) else None
  | None => None
  end.

Definition titleText (m : Input.Merchandise) : string :=
  toLowerCase (match Input.title m with Some t => t | None => "" end).

Definition skuText (m : Input.Merchandise) : string :=
  toLowerCase (match Input.sku m with Some s => s | None => "" end).

(** The category a single signal yields on its own. *)
Definition tagSize (m : Input.Merchandise) : option string :=
  match tagText m with
  | Some text => firstMatch SIZE_KEYWORDS text
  | None => None
  end.

(** The decision the loop body reaches for one line: the size and the
    discount of a line that receives a candidate, [None] for a line that is
    skipped. *)
Definition lineDecision (line : Input.CartLine) : option (string * DiscountInfo) :=
  match Input.merchandise line with
  | None => None
  | Some m =>
      if (Input.__typename m =? "ProductVariant")%string then
        match getSizeFromVariant m with
        | Some size =>
            match calculateDiscount size (Input.quantity line) with
            | Some d => Some (size, d)
            | None => None
            end
        | None => None
        end
      else None
  end.

Definition qualifies (line : Input.CartLine) : bool :=
  match lineDecision line with
  | Some _ => true
  | None => false
  end.

(** The candidates of a list of lines, one per qualifying line. *)
Definition decisionsOf (lines : list Input.CartLine) : list Output.Candidate :=
  flat_map (fun line =>
              match lineDecision line with
              | Some (size, d) => [candidateFor line size d]
              | None => []
              end) lines.

(** Two strings that differ at most in the case of their letters. *)
Inductive sameUpToCase : string -> string -> Prop :=
| sameUpToCase_nil : sameUpToCase EmptyString EmptyString
| sameUpToCase_cons c c' s s' :
    lower_char c = lower_char c' ->
    sameUpToCase s s' ->
    sameUpToCase (String c s) (String c' s').

Definition sameUpToCaseOpt (a b : option string) : Prop :=
  match a, b with
  | Some s, Some s' => sameUpToCase s s'
  | None, None => True
  | _, _ => False
  end.

(** Two merchandise records whose signals differ at most in letter case. *)
Definition caseVariant (m m' : Input.Merchandise) : Prop :=
  sameUpToCaseOpt (Input.title m) (Input.title m') /\
  sameUpToCaseOpt (Input.sku m) (Input.sku m') /\
  sameUpToCaseOpt (option_map Input.value (Input.boxSize m))
                  (option_map Input.value (Input.boxSize m')).

(** The merchandise with [f] applied to each signal that is present. *)
Definition mapSignals (f : string -> string) (m : Input.Merchandise)
  : Input.Merchandise :=
  {| Input.__typename := Input.__typename m;
     Input.title := option_map f (Input.title m);
     Input.sku := option_map f (Input.sku m);
     Input.boxSize :=
       option_map (fun mf => {| Input.value := f (Input.value mf) |})
                  (Input.boxSize m) |}.

(** Upper-casing of the letters a-z. *)
Definition upper_char (c : ascii) : ascii :=
  let n := N_of_ascii c in
  if ((97 <=? n) && (n <=? 122))%N then ascii_of_N (n - 32) else c.

Fixpoint toUpperCaseAscii (s : string) : string :=
  match s with
  | EmptyString => EmptyString
  | String c s' => String (upper_char c) (toUpperCaseAscii s')
  end.

(** ** The loop with a record of the work it does

    The same function, also returning the identifiers of the lines the loop
    body was entered for, in the order it visited them. *)

Definition cart_lines_discounts_generate_run_traced (input : Input.t)
  : Output.t * list string :=
  if negb (hasProductDiscountClass input) then ({| Output.operations := [] |}, [])
  else
    let '(candidates, visited) :=
      fold_left (fun '(candidates, visited) line =>
                   (processLine DISCOUNT_CONFIG SIZE_KEYWORDS candidates line,
                    (visited ++ [Input.id line])%list))
                (cartLines input) ([], @nil string) in
    match candidates with
    | [] => ({| Output.operations := [] |}, visited)
    | _ =>
        ({| Output.operations :=
              [ {| Output.productDiscountsAdd :=
                     {| Output.selectionStrategy := "ALL";
                        Output.candidates := candidates |} |} ] |}, visited)
    end.

(** A line the loop has nothing to discount on: the merchandise is missing
    or is not a product variant, no signal names a size, or the quantity is
    not listed in the tier table of the size. *)
Definition malformed (line : Input.CartLine) : Prop :=
  Input.merchandise line = None \/
  (exists m, Input.merchandise line = Some m /\
             Input.__typename m <> "ProductVariant") \/
  (exists m, Input.merchandise line = Some m /\
             getSizeFromVariant m = None) \/
  (exists m size, Input.merchandise line = Some m /\
                  getSizeFromVariant m = Some size /\
                  ~ In (Input.quantity line) (tierKeys DISCOUNT_CONFIG size)).

(** The result that carries no operation. *)
Definition noOperations : Output.t := {| Output.operations := [] |}.

(** The target that references a cart line. *)
Definition targetOf (line : Input.CartLine) : Output.Target :=
  {| Output.cartLine := {| Output.id := Input.id line |} |}.

(** The discount amounts the header of the source lists for the four tiers,
    with the two-decimal string each is emitted as. *)
Definition DISCOUNT_AMOUNTS : list (string * Z * Q * string) :=
  [ ("500g", 6%Z, 24%Q, "24.00");
    ("500g", 12%Z, 108%Q, "108.00");
    ("1kg", 6%Z, 54%Q, "54.00");
    ("1kg", 12%Z, 168%Q, "168.00") ].

(** The candidates a result carries. *)
Definition emitted (out : Output.t) : list Output.Candidate :=
  flat_map (fun op => Output.candidates (Output.productDiscountsAdd op))
           (Output.operations out).

(** The same invocation on another list of cart lines. *)
Definition withLines (input : Input.t) (ls : list Input.CartLine) : Input.t :=
  {| Input.cart := Some {| Input.lines := ls |};
     Input.discount := Input.discount input |}.

(** ** Sample inputs *)

(** A product variant with the given title, sku and tag value. *)
Definition variant (t s b : option string) : Input.Merchandise :=
  {| Input.__typename := "ProductVariant";
     Input.title := t;
     Input.sku := s;
     Input.boxSize := option_map (fun v => {| Input.value := v |}) b |}.

(** A cart line on a product variant that carries only a title. *)
Definition titled (i : string) (q : Z) (t : string) : Input.CartLine :=
  {| Input.id := i; Input.quantity := q;
     Input.merchandise := Some (variant (Some t) None None) |}.

(** An invocation that declares the product discount class. *)
Definition eligible (ls : list Input.CartLine) : Input.t :=
  {| Input.cart := Some {| Input.lines := ls |};
     Input.discount := Some {| Input.discountClasses := Some ["PRODUCT"] |} |}.

(** The single batched operation carrying [cs]. *)
Definition batch (cs : list Output.Candidate) : Output.t :=
  {| Output.operations :=
       [ {| Output.productDiscountsAdd :=
              {| Output.selectionStrategy := "ALL";
                 Output.candidates := cs |} |} ] |}.

(** The candidate for line [i] with message [msg] and amount [amt]. *)
Definition candidate (i msg amt : string) : Output.Candidate :=
  {| Output.targets := [ {| Output.cartLine := {| Output.id := i |} |} ];
     Output.message := msg;
     Output.value := {| Output.fixedAmount := {| Output.amount := amt |} |} |}.

(** ** The order-level alternative

    The source keeps a second entry point,
    [cart_lines_discounts_generate_run_order_version], in a comment block
    ("uncomment and use this if you prefer order-level discounts").  It
    shares [getSizeFromVariant] and [calculateDiscount] with the product
    version and differs in what it accumulates and returns. *)

Module OrderOutput.

Record OrderSubtotal := { excludedCartLineIds : list string }.
Record Target := { orderSubtotal : OrderSubtotal }.

Record Candidate := {
  targets : list Target;
  message : string;
  value : Output.Value
}.

Record OrderDiscountsAdd := {
  selectionStrategy : string;
  candidates : list Candidate
}.

Record Operation := { orderDiscountsAdd : OrderDiscountsAdd }.

Record t := { operations : list Operation }.

End OrderOutput.

(** [input.discount?.discountClasses?.includes('ORDER')] *)
Definition hasOrderDiscountClass (input : Input.t) : bool :=
  match Input.discount input with
  | None => false
  | Some d =>
      match Input.discountClasses d with
      | None => false
      | Some classes => existsb (fun c => (c =? "ORDER")%string) classes
      end
  end.

(** One iteration of the loop of the order version on its two accumulators,
    [totalDiscount] and [appliedDiscounts]. *)
Definition orderStep (acc : Q * list string) (line : Input.CartLine) : Q * list string :=
  let '(totalDiscount, appliedDiscounts) := acc in
  match Input.merchandise line with
  | None => acc
  | Some merchandise =>
      if negb (Input.__typename merchandise =? "ProductVariant")%string then acc
      else
        match getSizeFromVariant merchandise with
        | None => acc
        | Some size =>
            if negb (truthy size) then acc
            else
              match calculateDiscount size (Input.quantity line) with
              | Some discount =>
                  (totalDiscount + amount discount,
                   (appliedDiscounts ++ [(toString (Input.quantity line) ++ "x " ++ size)%string])%list)
              | None => acc
              end
        end
  end.

Definition cart_lines_discounts_generate_run_order_version (input : Input.t)
  : OrderOutput.t :=
  if negb (hasOrderDiscountClass input) then {| OrderOutput.operations := [] |}
  else
    let '(totalDiscount, appliedDiscounts) :=
      fold_left orderStep (cartLines input) (0, []) in
    if Qeq_bool totalDiscount 0 then {| OrderOutput.operations := [] |}
    else
      {| OrderOutput.operations :=
           [ {| OrderOutput.orderDiscountsAdd :=
                  {| OrderOutput.selectionStrategy := "FIRST";
                     OrderOutput.candidates :=
                       [ {| OrderOutput.targets :=
                              [ {| OrderOutput.orderSubtotal :=
                                     {| OrderOutput.excludedCartLineIds := [] |} |} ];
                            OrderOutput.message :=
                              "Bundle Deal: " ++ String.concat ", " appliedDiscounts;
                            OrderOutput.value :=
                              {| Output.fixedAmount :=
                                   {| Output.amount := toFixed 2 totalDiscount |} |}
                         |} ] |} |} ] |}.

(** ** The first version of the guide

    The walkthrough that accompanies the function builds it in steps.  Its
    first listing classifies by the variant title alone, returns the bare
    amount from [calculateDiscount], and reads [input.discount],
    [input.cart] and [line.merchandise] without guarding against their
    absence: reading a property of [null] throws. *)

(** What a call yields: a value, or the [TypeError] thrown by a property
    read on [null] or [undefined]. *)
Inductive outcome (A : Type) : Type :=
| Returned (a : A)
| TypeError.
Arguments Returned {A} a.
Arguments TypeError {A}.

Module Guide.

(** [getSizeFromVariant(variantTitle)] of the first listing. *)
Definition getSizeFromVariant (variantTitle : option string) : option string :=
  match variantTitle with
  | None => None
  | Some t =>
      if negb (truthy t) then None
      else
        let title := toLowerCase t in
        if includes title "500g" || includes title "500 g" then Some "500g"
        else if includes title "1kg" || includes title "1 kg" || includes title "1000g"
             then Some "1kg"
             else None
  end.

(** [calculateDiscount(size, quantity)] of the first listing, over a table:
    [!tierPrice] also rejects a bundle total of zero, and the amount itself
    is returned. *)
Definition calculateDiscountIn (config : list (string * PricingTier))
           (size : string) (quantity : Z) : option Q :=
  match lookup config size with
  | None => None
  | Some cfg =>
      match tierLookup (tiers cfg) quantity with
      | None => None
      | Some tierPrice =>
          if Qeq_bool tierPrice 0 then None
          else
            let fullPrice := unitPrice cfg * inject_Z quantity in
            let discountAmount := fullPrice - tierPrice in
            if Qle_bool discountAmount 0 then None else Some discountAmount
      end
  end.

(** The table of the first listing is the table of the source. *)
Definition calculateDiscount : string -> Z -> option Q :=
  calculateDiscountIn DISCOUNT_CONFIG.

Definition candidateFor (line : Input.CartLine) (size : string) (discountAmount : Q)
  : Output.Candidate :=
  {| Output.targets := [ {| Output.cartLine := {| Output.id := Input.id line |} |} ];
     Output.message := toString (Input.quantity line) ++ "x " ++ size ++ " Bundle Deal";
     Output.value :=
       {| Output.fixedAmount := {| Output.amount := toFixed 2 discountAmount |} |} |}.

(** One iteration of the loop; [line.merchandise.__typename] throws when
    the merchandise is missing.  The test before the push is
    [discountAmount && discountAmount > 0]. *)
Definition processLine (candidates : list Output.Candidate) (line : Input.CartLine)
  : outcome (list Output.Candidate) :=
  match Input.merchandise line with
  | None => TypeError
  | Some merchandise =>
      if negb (Input.__typename merchandise =? "ProductVariant")%string
      then Returned candidates
      else
        let variantTitle := Input.title merchandise in
        let quantity := Input.quantity line in
        match getSizeFromVariant variantTitle with
        | None => Returned candidates
        | Some size =>
            match calculateDiscount size quantity with
            | Some discountAmount =>
                if negb (Qeq_bool discountAmount 0) && negb (Qle_bool discountAmount 0)
                then Returned (candidates ++ [candidateFor line size discountAmount])%list
                else Returned candidates
            | None => Returned candidates
            end
        end
  end.

(** The loop: a throw in one iteration ends the call. *)
Fixpoint processLines (candidates : list Output.Candidate) (lines : list Input.CartLine)
  : outcome (list Output.Candidate) :=
  match lines with
  | [] => Returned candidates
  | line :: rest =>
      match processLine candidates line with
      | Returned candidates' => processLines candidates' rest
      | TypeError => TypeError
      end
  end.

Definition cart_lines_discounts_generate_run (input : Input.t) : outcome Output.t :=
  match Input.discount input with
  | None => TypeError
  | Some d =>
      match Input.discountClasses d with
      | None => TypeError
      | Some classes =>
          if negb (existsb (fun c => (c =? "PRODUCT")%string) classes)
          then Returned {| Output.operations := [] |}
          else
            match Input.cart input with
            | None => TypeError
            | Some c =>
                match processLines [] (Input.lines c) with
                | TypeError => TypeError
                | Returned candidates =>
                    Returned
                      {| Output.operations :=
                           match candidates with
                           | [] => []
                           | _ =>
                               [ {| Output.productDiscountsAdd :=
                                      {| Output.selectionStrategy := "ALL";
                                         Output.candidates := candidates |} |} ]
                           end |}
                end
            end
      end
  end.

End Guide.

(** ** The metafield step of the guide

    A later step of the walkthrough replaces the classifier by one that
    reads the tag first and the title second, and never the sku. *)

Module GuideMetafield.

Definition getSizeFromVariant (merchandise : Input.Merchandise) : option string :=
  let fromMeta :=
    match Input.boxSize merchandise with
    | Some mf =>
        if truthy (Input.value mf) then
          let metaValue := toLowerCase (Input.value mf) in
          if includes metaValue "500g" || (metaValue =? "500g")%string then Some "500g"
          else if includes metaValue "1kg" || (metaValue =? "1kg")%string then Some "1kg"
          else None
        else None
    | None => None
    end in
  match fromMeta with
  | Some size => Some size
  | None =>
      let title := match Input.title merchandise with
                   | Some t => toLowerCase t
                   | None => ""
                   end in
      if includes title "500g" || includes title "500 g" then Some "500g"
      else if includes title "1kg" || includes title "1 kg" then Some "1kg"
      else None
  end.

End GuideMetafield.

(** ** Further notions used to state the properties *)

(** The keywords of all categories. *)
Definition allKeywords : list string := flat_map snd SIZE_KEYWORDS.

(** A text contains none of the keywords. *)
Definition mentionsNoSize (text : string) : Prop :=
  forall kw, In kw allKeywords -> includes text kw = false.

(** The keyword table without the spelling "500gr". *)
Definition SIZE_KEYWORDS_without_500gr : list (string * list string) :=
  [ ("500g", ["500g"; "500 g"; "0.5kg"]);
    ("1kg",  ["1kg"; "1 kg"; "1000g"; "1000 g"]) ].

(** A non-empty string that neither starts nor ends with white space. *)
Fixpoint endsNonSpace (s : string) : bool :=
  match s with
  | EmptyString => false
  | String c EmptyString => negb (is_space c)
  | String _ s' => endsNonSpace s'
  end.

Definition startsNonSpace (s : string) : bool :=
  match s with
  | EmptyString => false
  | String c _ => negb (is_space c)
  end.

(** A string of white space only. *)
Fixpoint allSpace (s : string) : bool :=
  match s with
  | EmptyString => true
  | String c s' => is_space c && allSpace s'
  end.

(** The four outcomes a discounted line can have: size, quantity, message
    and amount. *)
Definition OUTCOMES : list (string * Z * string * string) :=
  [ ("500g", 6%Z, "6x 500g Bundle Deal - Save R24", "24.00");
    ("500g", 12%Z, "12x 500g Bundle Deal - Save R108", "108.00");
    ("1kg", 6%Z, "6x 1kg Bundle Deal - Save R54", "54.00");
    ("1kg", 12%Z, "12x 1kg Bundle Deal - Save R168", "168.00") ].

(** The decisions of a cart: each qualifying line with its size and
    discount, in cart order. *)
Definition decidedLines (lines : list Input.CartLine)
  : list (Input.CartLine * string * DiscountInfo) :=
  flat_map (fun line =>
              match lineDecision line with
              | Some (size, d) => [(line, size, d)]
              | None => []
              end) lines.

(** The running sum the order version keeps, from a starting value. *)
Definition sumFrom (start : Q) (amounts : list Q) : Q :=
  fold_left Qplus amounts start.

(** The label the order version records for a discounted line. *)
Definition orderLabel (e : Input.CartLine * string * DiscountInfo) : string :=
  let '(line, size, _) := e in toString (Input.quantity line) ++ "x " ++ size.

(** The same invocation with another list of discount classes. *)
Definition withClasses (input : Input.t) (classes : list string) : Input.t :=
  {| Input.cart := Input.cart input;
     Input.discount := Some {| Input.discountClasses := Some classes |} |}.

(** The amount of a decision. *)
Definition amountOf (e : Input.CartLine * string * DiscountInfo) : Q :=
  let '(_, _, d) := e in amount d.

(** The candidate the product version pushes for a decision. *)
Definition candidateOf (e : Input.CartLine * string * DiscountInfo) : Output.Candidate :=
  let '(line, size, d) := e in candidateFor line size d.

(** The result of the order version that carries one operation, with
    message [msg] and amount [amt]. *)
Definition orderBatch (msg amt : string) : OrderOutput.t :=
  {| OrderOutput.operations :=
       [ {| OrderOutput.orderDiscountsAdd :=
              {| OrderOutput.selectionStrategy := "FIRST";
                 OrderOutput.candidates :=
                   [ {| OrderOutput.targets :=
                          [ {| OrderOutput.orderSubtotal :=
                                 {| OrderOutput.excludedCartLineIds := [] |} |} ];
                        OrderOutput.message := msg;
                        OrderOutput.value :=
                          {| Output.fixedAmount := {| Output.amount := amt |} |}
                     |} ] |} |} ] |}.

(** The result of the order version that carries no operation. *)
Definition noOrderOperations : OrderOutput.t := {| OrderOutput.operations := [] |}.

(** A title that uses neither of the two spellings the first listing of
    the guide does not know. *)
Definition knownToGuide (title : option string) : Prop :=
  forall t, title = Some t ->
            includes (toLowerCase t) "0.5kg" = false /\
            includes (toLowerCase t) "1000 g" = false.



(** ** The customisations the guide proposes

    The guide closes with two edits of [DISCOUNT_CONFIG]: a tier for 24
    boxes of 500g, and a 2kg size.  Each listing elides the entries that
    stay as they are; here they are the list [rest] or [existing]. *)

(** The 500g entry with the tier for 24 boxes. *)
Definition ENTRY_500G_WITH_24 : string * PricingTier :=
  ("500g", {| unitPrice := 59;
              tiers := [(6%Z, 330%Q); (12%Z, 600%Q); (24%Z, 1100%Q)] |}).

Definition configWithTier24 (rest : list (string * PricingTier))
  : list (string * PricingTier) :=
  ENTRY_500G_WITH_24 :: rest.

(** The 2kg entry. *)
Definition ENTRY_2KG : string * PricingTier :=
  ("2kg", {| unitPrice := 180; tiers := [(6%Z, 900%Q); (12%Z, 1700%Q)] |}).

Definition configWith2kg (existing : list (string * PricingTier))
  : list (string * PricingTier) :=
  (existing ++ [ENTRY_2KG])%list.

(** * Properties *)

(** ** Strings *)

Lemma prefix_iff (kw s : string) :
  prefix kw s = true <-> exists post, s = kw ++ post.
Proof.
  revert s; induction kw as [|a kw IH]; intros s; simpl.
  - split; [intros _; now exists s | intros _; now destruct s].
  - destruct s as [|b s]; simpl.
    + split; [discriminate | intros [post H]; discriminate].
    + destruct (ascii_dec a b) as [->|Hab].
      * rewrite IH. split; intros [post H]; exists post.
        -- now rewrite H.
        -- now inversion H.
      * split; [discriminate | intros [post H]; inversion H; congruence].
Qed.

Lemma includes_iff (s kw : string) :
  includes s kw = true <-> exists pre post, s = pre ++ kw ++ post.
Proof.
  induction s as [|c s IH]; cbn [includes].
  - rewrite orb_false_r, prefix_iff. split.
    + intros [post H]. now exists "", post.
    + intros [pre [post H]]. destruct pre; simpl in H; [now exists post | discriminate].
  - rewrite orb_true_iff, prefix_iff, IH. split.
    + intros [[post H] | [pre [post H]]].
      * now exists "", post.
      * exists (String c pre), post. simpl. now rewrite H.
    + intros [pre [post H]]. destruct pre as [|c' pre]; simpl in H.
      * left. now exists post.
      * right. inversion H. now exists pre, post.
Qed.

Lemma toLowerCase_app (a b : string) :
  toLowerCase (a ++ b) = toLowerCase a ++ toLowerCase b.
Proof.
  induction a as [|c a IH]; simpl; [reflexivity | now rewrite IH].
Qed.

Lemma lower_char_idem (c : ascii) : lower_char (lower_char c) = lower_char c.
Proof.
  destruct c as [[] [] [] [] [] [] [] []]; reflexivity.
Qed.

Lemma toLowerCase_idem (s : string) : toLowerCase (toLowerCase s) = toLowerCase s.
Proof.
  induction s as [|c s IH]; simpl; [reflexivity | now rewrite lower_char_idem, IH].
Qed.

Lemma lower_upper_char (c : ascii) : lower_char (upper_char c) = lower_char c.
Proof.
  destruct c as [[] [] [] [] [] [] [] []]; reflexivity.
Qed.

Lemma sameUpToCase_lower (s s' : string) :
  sameUpToCase s s' <-> toLowerCase s = toLowerCase s'.
Proof.
  split.
  - induction 1 as [|c c' s s' Hc _ IH]; simpl; [reflexivity | now rewrite Hc, IH].
  - revert s'; induction s as [|c s IH]; intros [|c' s'] H; simpl in H;
      try discriminate; [constructor|].
    inversion H. constructor; auto.
Qed.

Lemma sameUpToCase_truthy (s s' : string) :
  sameUpToCase s s' -> truthy s = truthy s'.
Proof. now destruct 1. Qed.

Lemma sameUpToCase_toLowerCase (s : string) : sameUpToCase (toLowerCase s) s.
Proof. apply sameUpToCase_lower, toLowerCase_idem. Qed.

Lemma sameUpToCase_toUpperCaseAscii (s : string) : sameUpToCase (toUpperCaseAscii s) s.
Proof.
  induction s as [|c s IH]; simpl; constructor; auto using lower_upper_char.
Qed.

(** ** Size classification *)

(** The loop over the categories returns the first entry, in enumeration
    order, one of whose keywords the text contains. *)
Lemma firstMatch_first entries text size :
  firstMatch entries text = Some size <->
  exists before keywords after,
    entries = (before ++ (size, keywords) :: after)%list /\
    matchesAny text keywords = true /\
    Forall (fun e => matchesAny text (snd e) = false) before.
Proof.
  induction entries as [|[sz kws] rest IH]; simpl.
  - split; [discriminate | intros (b & k & a & H & _)].
    destruct b; discriminate.
  - destruct (matchesAny text kws) eqn:Hm.
    + split.
      * intros [= <-]. now exists [], kws, rest.
      * intros (b & k & a & H & Hk & Hb). destruct b as [|e b]; simpl in H.
        -- now inversion H.
        -- inversion H; subst e. inversion Hb; simpl in *; congruence.
    + rewrite IH. split.
      * intros (b & k & a & -> & Hk & Hb).
        exists ((sz, kws) :: b), k, a. repeat split; auto.
      * intros (b & k & a & H & Hk & Hb). destruct b as [|e b]; simpl in H.
        -- inversion H; congruence.
        -- inversion H; subst. inversion Hb. now exists b, k, a.
Qed.

Lemma firstMatch_SIZE_KEYWORDS text :
  firstMatch SIZE_KEYWORDS text =
  if matchesCategory text "500g" then Some "500g"
  else if matchesCategory text "1kg" then Some "1kg"
  else None.
Proof. reflexivity. Qed.

Lemma matchesCategory_cases text size :
  matchesCategory text size = true -> size = "500g" \/ size = "1kg".
Proof.
  unfold matchesCategory, SIZE_KEYWORDS; cbn [lookup].
  destruct ("500g" =? size)%string eqn:E1.
  - apply String.eqb_eq in E1. auto.
  - destruct ("1kg" =? size)%string eqn:E2; [|discriminate].
    apply String.eqb_eq in E2. auto.
Qed.

Lemma firstMatch_matches text size :
  firstMatch SIZE_KEYWORDS text = Some size -> matchesCategory text size = true.
Proof.
  rewrite firstMatch_SIZE_KEYWORDS.
  destruct (matchesCategory text "500g") eqn:E1; [now intros [= <-]|].
  destruct (matchesCategory text "1kg") eqn:E2; [now intros [= <-] | discriminate].
Qed.

Lemma firstMatch_unique text size :
  matchesCategory text size = true ->
  (forall size', size' <> size -> matchesCategory text size' = false) ->
  firstMatch SIZE_KEYWORDS text = Some size.
Proof.
  intros Hm Hu. rewrite firstMatch_SIZE_KEYWORDS.
  destruct (matchesCategory_cases _ _ Hm) as [-> | ->].
  - now rewrite Hm.
  - rewrite (Hu "500g") by discriminate. now rewrite Hm.
Qed.

Lemma firstMatch_tie text size size' :
  size <> size' ->
  matchesCategory text size = true ->
  matchesCategory text size' = true ->
  firstMatch SIZE_KEYWORDS text = Some "500g".
Proof.
  intros Hne H1 H2. rewrite firstMatch_SIZE_KEYWORDS.
  destruct (matchesCategory_cases _ _ H1) as [-> | ->].
  - now rewrite H1.
  - destruct (matchesCategory_cases _ _ H2) as [-> | ->]; [now rewrite H2 | congruence].
Qed.

(** The three signals are consulted in the order tag, title, sku. *)
Lemma getSizeFromVariant_waterfall m :
  getSizeFromVariant m =
  match tagSize m with
  | Some size => Some size
  | None =>
      match firstMatch SIZE_KEYWORDS (titleText m) with
      | Some size => Some size
      | None => firstMatch SIZE_KEYWORDS (skuText m)
      end
  end.
Proof.
  unfold getSizeFromVariant, getSizeFromVariantIn, tagSize, tagText, titleText, skuText.
  destruct (Input.boxSize m) as [mf|]; [|reflexivity].
  destruct (truthy (Input.value mf)); reflexivity.
Qed.

Lemma getSizeFromVariant_cases m size :
  getSizeFromVariant m = Some size -> size = "500g" \/ size = "1kg".
Proof.
  rewrite getSizeFromVariant_waterfall. unfold tagSize.
  intros H.
  assert (Hex : exists text, firstMatch SIZE_KEYWORDS text = Some size).
  { destruct (tagText m) as [text|].
    - destruct (firstMatch SIZE_KEYWORDS text) eqn:E;
        [inversion H; subst; now exists text|].
      destruct (firstMatch SIZE_KEYWORDS (titleText m)) eqn:E2;
        [inversion H; subst; now exists (titleText m) | now exists (skuText m)].
    - destruct (firstMatch SIZE_KEYWORDS (titleText m)) eqn:E2;
        [inversion H; subst; now exists (titleText m) | now exists (skuText m)]. }
  destruct Hex as [text Hex].
  eapply matchesCategory_cases, firstMatch_matches, Hex.
Qed.

Lemma getSizeFromVariant_truthy m size :
  getSizeFromVariant m = Some size -> truthy size = true.
Proof.
  intros H. destruct (getSizeFromVariant_cases _ _ H) as [-> | ->]; reflexivity.
Qed.

(** C4. Classification follows the priority tag, then title, then sku.  A
    tag value that is present, non-empty and matches a category decides the
    category whatever the title and the sku are (also when they are absent
    or match another category); only when the tag yields nothing is the
    title consulted, and only when the title yields nothing is the sku
    consulted.  The result is always what a single source yields. *)
Theorem getSizeFromVariant_signal_priority :
  (forall ty t s v size,
      v <> "" ->
      firstMatch SIZE_KEYWORDS (trim (toLowerCase v)) = Some size ->
      getSizeFromVariant
        {| Input.__typename := ty; Input.title := t; Input.sku := s;
           Input.boxSize := Some {| Input.value := v |} |} = Some size) /\
  (forall ty t s v size,
      v <> "" ->
      matchesCategory (trim (toLowerCase v)) size = true ->
      (forall size', size' <> size ->
                     matchesCategory (trim (toLowerCase v)) size' = false) ->
      getSizeFromVariant
        {| Input.__typename := ty; Input.title := t; Input.sku := s;
           Input.boxSize := Some {| Input.value := v |} |} = Some size) /\
  (forall m size,
      tagSize m = None ->
      firstMatch SIZE_KEYWORDS (titleText m) = Some size ->
      getSizeFromVariant m = Some size) /\
  (forall m,
      tagSize m = None ->
      firstMatch SIZE_KEYWORDS (titleText m) = None ->
      getSizeFromVariant m = firstMatch SIZE_KEYWORDS (skuText m)).
Proof.
  assert (Htag : forall ty t s v size,
             v <> "" ->
             firstMatch SIZE_KEYWORDS (trim (toLowerCase v)) = Some size ->
             getSizeFromVariant
               {| Input.__typename := ty; Input.title := t; Input.sku := s;
                  Input.boxSize := Some {| Input.value := v |} |} = Some size).
  { intros ty t s v size Hv Hm. rewrite getSizeFromVariant_waterfall.
    unfold tagSize, tagText; cbn [Input.boxSize Input.value].
    destruct v; [contradiction|]. cbn [truthy]. now rewrite Hm. }
  repeat split.
  - exact Htag.
  - intros ty t s v size Hv Hm Hu. apply Htag; auto using firstMatch_unique.
  - intros m size Ht Hm. rewrite getSizeFromVariant_waterfall, Ht. now rewrite Hm.
  - intros m Ht Hm. rewrite getSizeFromVariant_waterfall, Ht. now rewrite Hm.
Qed.

(** A tag naming the 1kg size wins over a title and a sku that both name
    the 500g size; without a tag the title wins over the sku; without a tag
    and with a title that names no size the sku decides. *)
Lemma getSizeFromVariant_signal_priority_witness :
  getSizeFromVariant
    {| Input.__typename := "ProductVariant";
       Input.title := Some "Cookies 500g";
       Input.sku := Some "CK-500G";
       Input.boxSize := Some {| Input.value := " 1000G " |} |} = Some "1kg" /\
  getSizeFromVariant
    {| Input.__typename := "ProductVariant";
       Input.title := None;
       Input.sku := None;
       Input.boxSize := Some {| Input.value := "1 kg" |} |} = Some "1kg" /\
  getSizeFromVariant (variant (Some "Cookies 1kg") (Some "CK-500G") None) = Some "1kg" /\
  getSizeFromVariant (variant (Some "Cookies") (Some "CK-500G") (Some "large")) =
  firstMatch SIZE_KEYWORDS (skuText (variant (Some "Cookies") (Some "CK-500G") (Some "large"))).
Proof.
  split; [|split; [|split]].
  - apply (proj1 getSizeFromVariant_signal_priority); [discriminate | reflexivity].
  - apply (proj1 (proj2 getSizeFromVariant_signal_priority));
      [discriminate | reflexivity |].
    intros size' Hne. unfold matchesCategory, SIZE_KEYWORDS; cbn [lookup].
    destruct (String.eqb_spec "500g" size') as [<-|_]; [reflexivity|].
    destruct (String.eqb_spec "1kg" size') as [<-|_]; [contradiction | reflexivity].
  - apply (proj1 (proj2 (proj2 getSizeFromVariant_signal_priority)));
      reflexivity.
  - apply (proj2 (proj2 (proj2 getSizeFromVariant_signal_priority)));
      reflexivity.
Defined.

(** ** Discount evaluation *)

Lemma tierLookup_None ts q : ~ In q (map fst ts) -> tierLookup ts q = None.
Proof.
  induction ts as [|[k v] ts IH]; simpl; [reflexivity|].
  intros H. destruct (Z.eqb_spec k q) as [->|Hne]; [exfalso; auto | auto].
Qed.

Lemma calculateDiscountIn_not_tier config size q :
  ~ In q (tierKeys config size) -> calculateDiscountIn config size q = None.
Proof.
  unfold tierKeys, calculateDiscountIn.
  destruct (lookup config size) as [cfg|]; [|reflexivity].
  intros H. now rewrite tierLookup_None.
Qed.

(** Whatever the configuration, an amount that is returned is positive and
    is the full price less the bundle total. *)
Lemma calculateDiscountIn_Some config size q d :
  calculateDiscountIn config size q = Some d ->
  exists cfg tier,
    lookup config size = Some cfg /\
    tierLookup (tiers cfg) q = Some tier /\
    amount d = unitPrice cfg * inject_Z q - tier /\
    savings d = amount d /\
    0 < amount d.
Proof.
  unfold calculateDiscountIn.
  destruct (lookup config size) as [cfg|] eqn:Ec; [|discriminate].
  destruct (tierLookup (tiers cfg) q) as [tier|] eqn:Et; [|discriminate].
  destruct (Qle_bool (unitPrice cfg * inject_Z q - tier) 0) eqn:E; [discriminate|].
  intros [= <-]. exists cfg, tier. cbn [amount savings].
  split; [reflexivity|]. split; [exact Et|]. do 2 (split; [reflexivity|]).
  apply Qnot_le_lt. intros Hle. apply Qle_bool_iff in Hle. congruence.
Qed.

Lemma tierKeys_configured size :
  In size (map fst DISCOUNT_CONFIG) -> tierKeys DISCOUNT_CONFIG size = [6; 12]%Z.
Proof.
  simpl. intros [<- | [<- | []]]; reflexivity.
Qed.

Lemma lookup_In {A} (table : list (string * A)) key v :
  lookup table key = Some v -> In key (map fst table).
Proof.
  induction table as [|[k x] table IH]; simpl; [discriminate|].
  destruct (String.eqb_spec k key); auto.
Qed.

Lemma tierKeys_cases size :
  tierKeys DISCOUNT_CONFIG size = [6; 12]%Z \/ tierKeys DISCOUNT_CONFIG size = [].
Proof.
  destruct (lookup DISCOUNT_CONFIG size) as [cfg|] eqn:E.
  - left. eapply tierKeys_configured, lookup_In, E.
  - right. unfold tierKeys. now rewrite E.
Qed.

(** C1. A quantity that is not a key of the tier table of the category
    receives no discount.  The keys of both configured categories are 6 and
    12 and nothing else, so every other quantity, and in particular 5, 7, 11
    and 13, yields no discount: there is no partial or interpolated
    amount. *)
Theorem calculateDiscount_exact_match_only :
  (forall size, In size (map fst DISCOUNT_CONFIG) ->
                tierKeys DISCOUNT_CONFIG size = [6; 12]%Z) /\
  (forall size q, ~ In q (tierKeys DISCOUNT_CONFIG size) ->
                  calculateDiscount size q = None) /\
  (forall size q, q <> 6%Z -> q <> 12%Z -> calculateDiscount size q = None) /\
  (forall size q, In q [5; 7; 11; 13]%Z -> calculateDiscount size q = None).
Proof.
  assert (H612 : forall size q, q <> 6%Z -> q <> 12%Z ->
                                calculateDiscount size q = None).
  { intros size q H6 H12. apply calculateDiscountIn_not_tier.
    destruct (tierKeys_cases size) as [-> | ->]; simpl; intuition congruence. }
  repeat split.
  - exact tierKeys_configured.
  - intros size q. apply calculateDiscountIn_not_tier.
  - exact H612.
  - intros size q Hq. apply H612; simpl in Hq; lia.
Qed.

(** Seven boxes of 500g, and thirteen boxes of 1kg: no discount. *)
Lemma calculateDiscount_exact_match_only_witness :
  tierKeys DISCOUNT_CONFIG "1kg" = [6; 12]%Z /\
  calculateDiscount "500g" 7 = None /\
  calculateDiscount "1kg" 8 = None /\
  calculateDiscount "1kg" 13 = None.
Proof.
  split; [|split; [|split]].
  - apply (proj1 calculateDiscount_exact_match_only). simpl. auto.
  - apply (proj1 (proj2 calculateDiscount_exact_match_only)). simpl. lia.
  - apply (proj1 (proj2 (proj2 calculateDiscount_exact_match_only))); lia.
  - apply (proj2 (proj2 (proj2 calculateDiscount_exact_match_only))). simpl. auto.
Defined.

(** ** The loop over the cart lines *)

(** One iteration appends the candidate of the line's decision, if any. *)
Lemma processLine_decision acc line :
  processLine DISCOUNT_CONFIG SIZE_KEYWORDS acc line =
  (acc ++ decisionsOf [line])%list.
Proof.
  unfold processLine, decisionsOf, lineDecision; cbn [flat_map].
  rewrite app_nil_r.
  destruct (Input.merchandise line) as [m|]; [|now rewrite app_nil_r].
  destruct (Input.__typename m =? "ProductVariant")%string; cbn [negb];
    [|now rewrite app_nil_r].
  change (getSizeFromVariantIn SIZE_KEYWORDS m) with (getSizeFromVariant m).
  destruct (getSizeFromVariant m) as [size|] eqn:Hs; [|now rewrite app_nil_r].
  rewrite (getSizeFromVariant_truthy _ _ Hs); cbn [negb].
  change (calculateDiscountIn DISCOUNT_CONFIG) with calculateDiscount.
  destruct (calculateDiscount size (Input.quantity line)); [reflexivity|].
  now rewrite app_nil_r.
Qed.

Lemma decisionsOf_app ls ls' :
  decisionsOf (ls ++ ls') = (decisionsOf ls ++ decisionsOf ls')%list.
Proof. apply flat_map_app. Qed.

Lemma decisionsOf_cons l ls :
  decisionsOf (l :: ls) = (decisionsOf [l] ++ decisionsOf ls)%list.
Proof. apply (decisionsOf_app [l] ls). Qed.

Lemma fold_left_processLine ls acc :
  fold_left (processLine DISCOUNT_CONFIG SIZE_KEYWORDS) ls acc =
  (acc ++ decisionsOf ls)%list.
Proof.
  revert acc; induction ls as [|l ls IH]; intros acc; cbn [fold_left].
  - now rewrite app_nil_r.
  - rewrite IH, processLine_decision, (decisionsOf_cons l ls). now rewrite app_assoc.
Qed.

(** What an eligible invocation returns, in terms of the decisions. *)
Lemma run_eligible input :
  hasProductDiscountClass input = true ->
  cart_lines_discounts_generate_run input =
  match decisionsOf (cartLines input) with
  | [] => noOperations
  | _ :: _ => batch (decisionsOf (cartLines input))
  end.
Proof.
  intros H. unfold cart_lines_discounts_generate_run, cart_lines_discounts_generate_run_in.
  rewrite H; cbn [negb]. rewrite fold_left_processLine; cbn [app].
  destruct (decisionsOf (cartLines input)); reflexivity.
Qed.

Lemma run_ineligible input :
  hasProductDiscountClass input = false ->
  cart_lines_discounts_generate_run input = noOperations.
Proof.
  intros H. unfold cart_lines_discounts_generate_run, cart_lines_discounts_generate_run_in.
  now rewrite H.
Qed.

(** The decisions of a cart are those of its qualifying lines, one each, in
    the order of the cart. *)
Lemma decisionsOf_qualifying ls :
  Forall2 (fun line c =>
             exists size d, lineDecision line = Some (size, d) /\
                            c = candidateFor line size d)
          (filter qualifies ls) (decisionsOf ls).
Proof.
  induction ls as [|l ls IH]; [constructor|].
  rewrite decisionsOf_cons. cbn [filter]. unfold qualifies, decisionsOf at 1.
  cbn [flat_map]. destruct (lineDecision l) as [[size d]|] eqn:E; cbn [app].
  - constructor; [now exists size, d | exact IH].
  - exact IH.
Qed.

Lemma decisionsOf_nil_iff ls :
  decisionsOf ls = [] <-> filter qualifies ls = [].
Proof.
  pose proof (decisionsOf_qualifying ls) as H.
  split; intros E; rewrite E in H; now inversion H.
Qed.

Lemma malformed_no_decision line : malformed line -> lineDecision line = None.
Proof.
  unfold lineDecision.
  intros [H | [(m & H & Ht) | [(m & H & Hs) | (m & size & H & Hs & Hq)]]];
    rewrite H; try reflexivity.
  - apply String.eqb_neq in Ht. now rewrite Ht.
  - rewrite Hs. now destruct (_ =? _)%string.
  - rewrite Hs. unfold calculateDiscount.
    rewrite (calculateDiscountIn_not_tier DISCOUNT_CONFIG _ _ Hq).
    now destruct (_ =? _)%string.
Qed.

Lemma hasProductDiscountClass_withLines input ls :
  hasProductDiscountClass (withLines input ls) = hasProductDiscountClass input.
Proof. reflexivity. Qed.

Lemma decisionsOf_In ls c :
  In c (decisionsOf ls) ->
  exists line size d,
    In line ls /\ lineDecision line = Some (size, d) /\ c = candidateFor line size d.
Proof.
  unfold decisionsOf. rewrite in_flat_map. intros (line & Hin & Hc).
  destruct (lineDecision line) as [[size d]|] eqn:E; [|contradiction].
  destruct Hc as [<- | []]. now exists line, size, d.
Qed.

Lemma lineDecision_positive line size d :
  lineDecision line = Some (size, d) -> 0 < amount d.
Proof.
  unfold lineDecision.
  destruct (Input.merchandise line) as [m|]; [|discriminate].
  destruct (_ =? _)%string; [|discriminate].
  destruct (getSizeFromVariant m) as [sz|]; [|discriminate].
  destruct (calculateDiscount sz (Input.quantity line)) as [d'|] eqn:E; [|discriminate].
  intros [= <- <-]. apply calculateDiscountIn_Some in E.
  now destruct E as (cfg & tier & _ & _ & _ & _ & Hpos).
Qed.

Lemma emitted_run input :
  hasProductDiscountClass input = true ->
  emitted (cart_lines_discounts_generate_run input) = decisionsOf (cartLines input).
Proof.
  intros H. rewrite (run_eligible _ H).
  destruct (decisionsOf (cartLines input)) eqn:E; [reflexivity|].
  unfold emitted, batch; cbn [Output.operations flat_map Output.candidates
                                Output.productDiscountsAdd].
  now rewrite app_nil_r.
Qed.

(** C2. At each listed tier quantity of each configured category the
    discount is the unit price times the quantity less the bundle total:
    24, 108, 54 and 168, all positive, and the candidate of a line of that
    size and quantity carries the amount with two decimals ("24.00", ...).
    Whatever the configuration, an amount that is returned is positive, so
    no candidate is ever emitted for a zero or negative discount. *)
Theorem calculateDiscount_tier_amounts :
  (forall size q, In size ["500g"; "1kg"] -> In q [6; 12]%Z ->
                  exists a str, In (size, q, a, str) DISCOUNT_AMOUNTS) /\
  (forall size q a str,
      In (size, q, a, str) DISCOUNT_AMOUNTS ->
      exists d cfg tier,
        calculateDiscount size q = Some d /\
        lookup DISCOUNT_CONFIG size = Some cfg /\
        tierLookup (tiers cfg) q = Some tier /\
        amount d = unitPrice cfg * inject_Z q - tier /\
        amount d = a /\
        0 < amount d /\
        toFixed 2 (amount d) = str /\
        forall line m,
          Input.merchandise line = Some m ->
          Input.__typename m = "ProductVariant" ->
          getSizeFromVariant m = Some size ->
          Input.quantity line = q ->
          exists msg,
            cart_lines_discounts_generate_run (eligible [line]) =
            batch [candidate (Input.id line) msg str]) /\
  (forall config size q d,
      calculateDiscountIn config size q = Some d -> 0 < amount d) /\
  (forall config size q cfg tier,
      lookup config size = Some cfg ->
      tierLookup (tiers cfg) q = Some tier ->
      unitPrice cfg * inject_Z q - tier <= 0 ->
      calculateDiscountIn config size q = None) /\
  (forall input c,
      In c (emitted (cart_lines_discounts_generate_run input)) ->
      exists line size d,
        In line (cartLines input) /\
        lineDecision line = Some (size, d) /\
        0 < amount d /\
        c = candidateFor line size d).
Proof.
  split; [|split; [|split; [|split]]].
  - intros size q Hs Hq. simpl in Hs, Hq.
    destruct Hs as [<- | [<- | []]]; destruct Hq as [<- | [<- | []]];
      do 2 eexists; simpl; eauto 6.
  - intros size q a str Hin. simpl in Hin.
    destruct Hin as [H | [H | [H | [H | []]]]]; inversion H; subst; clear H;
      (eexists; eexists; eexists;
       split; [vm_compute; reflexivity|];
       split; [reflexivity|];
       split; [reflexivity|];
       split; [reflexivity|];
       split; [reflexivity|];
       split; [reflexivity|];
       split; [reflexivity|];
       intros line m Hm Ht Hs Hq;
       rewrite run_eligible by reflexivity;
       unfold eligible, cartLines, decisionsOf, lineDecision, candidateFor;
       cbn [Input.cart Input.lines flat_map];
       rewrite Hm, Ht, Hs, Hq; eexists; vm_compute; reflexivity).
  - intros config size q d H. apply calculateDiscountIn_Some in H.
    now destruct H as (cfg & tier & _ & _ & _ & _ & Hpos).
  - intros config size q cfg tier Hc Ht Hle. unfold calculateDiscountIn.
    rewrite Hc, Ht. apply Qle_bool_iff in Hle. now rewrite Hle.
  - intros input c Hin.
    destruct (hasProductDiscountClass input) eqn:He.
    + rewrite (emitted_run _ He) in Hin. apply decisionsOf_In in Hin.
      destruct Hin as (line & size & d & Hl & Hd & ->).
      exists line, size, d. repeat split; auto.
      eapply lineDecision_positive, Hd.
    + rewrite (run_ineligible _ He) in Hin. contradiction.
Qed.

(** Six boxes of 1kg: 6 x 99 - 540 = 54.  A table that sells six boxes of
    50 for 300, or for 310, grants nothing. *)
Lemma calculateDiscount_tier_amounts_witness :
  (exists a str, In ("500g", 12%Z, a, str) DISCOUNT_AMOUNTS) /\
  (exists d cfg tier,
      calculateDiscount "1kg" 6 = Some d /\
      lookup DISCOUNT_CONFIG "1kg" = Some cfg /\
      tierLookup (tiers cfg) 6 = Some tier /\
      amount d = unitPrice cfg * inject_Z 6 - tier /\
      amount d = 54 /\
      0 < amount d /\
      toFixed 2 (amount d) = "54.00" /\
      forall line m,
        Input.merchandise line = Some m ->
        Input.__typename m = "ProductVariant" ->
        getSizeFromVariant m = Some "1kg" ->
        Input.quantity line = 6%Z ->
        exists msg,
          cart_lines_discounts_generate_run (eligible [line]) =
          batch [candidate (Input.id line) msg "54.00"]) /\
  0 < amount {| amount := 108; fullPrice := 708; tierPrice := 600; savings := 108 |} /\
  calculateDiscountIn
    [("500g", {| unitPrice := 50; tiers := [(6%Z, 300%Q); (12%Z, 610%Q)] |})]
    "500g" 6 = None /\
  calculateDiscountIn
    [("500g", {| unitPrice := 50; tiers := [(6%Z, 300%Q); (12%Z, 610%Q)] |})]
    "500g" 12 = None /\
  (exists line size d,
      In line (cartLines (eligible [titled "line-1" 6 "Choc Chip 500g"])) /\
      lineDecision line = Some (size, d) /\
      0 < amount d /\
      candidate "line-1" "6x 500g Bundle Deal - Save R24" "24.00" =
      candidateFor line size d).
Proof.
  split; [|split; [|split; [|split; [|split]]]].
  - apply (proj1 calculateDiscount_tier_amounts); simpl; auto.
  - apply (proj1 (proj2 calculateDiscount_tier_amounts) "1kg" 6%Z 54 "54.00").
    simpl. auto.
  - apply (proj1 (proj2 (proj2 calculateDiscount_tier_amounts))
             DISCOUNT_CONFIG "500g" 12%Z).
    reflexivity.
  - apply (proj1 (proj2 (proj2 (proj2 calculateDiscount_tier_amounts)))
             _ "500g" 6%Z {| unitPrice := 50; tiers := [(6%Z, 300%Q); (12%Z, 610%Q)] |}
             300);
      [reflexivity | reflexivity | unfold Qle; simpl; lia].
  - apply (proj1 (proj2 (proj2 (proj2 calculateDiscount_tier_amounts)))
             _ "500g" 12%Z {| unitPrice := 50; tiers := [(6%Z, 300%Q); (12%Z, 610%Q)] |}
             610);
      [reflexivity | reflexivity | unfold Qle; simpl; lia].
  - apply (proj2 (proj2 (proj2 (proj2 calculateDiscount_tier_amounts)))
             (eligible [titled "line-1" 6 "Choc Chip 500g"])).
    left. reflexivity.
Defined.

(** C3. On an eligible invocation: when no line yields a decision the
    result has no operation; otherwise it has exactly one operation, with
    selection strategy "ALL", whose candidates are the candidates of the
    qualifying lines, one each, in the order of the cart, each targeting
    its own line. *)
Theorem aggregate_one_batch_in_cart_order :
  forall input,
    hasProductDiscountClass input = true ->
    (filter qualifies (cartLines input) = [] ->
     cart_lines_discounts_generate_run input = noOperations) /\
    (filter qualifies (cartLines input) <> [] ->
     exists cs,
       cart_lines_discounts_generate_run input =
       {| Output.operations :=
            [ {| Output.productDiscountsAdd :=
                   {| Output.selectionStrategy := "ALL";
                      Output.candidates := cs |} |} ] |} /\
       List.length cs = List.length (filter qualifies (cartLines input)) /\
       Forall2 (fun line c =>
                  Output.targets c = [targetOf line] /\
                  exists size d, lineDecision line = Some (size, d) /\
                                 c = candidateFor line size d)
               (filter qualifies (cartLines input)) cs).
Proof.
  intros input He. rewrite (run_eligible _ He).
  pose proof (decisionsOf_qualifying (cartLines input)) as Hq.
  split; intros Hf.
  - apply decisionsOf_nil_iff in Hf. now rewrite Hf.
  - destruct (decisionsOf (cartLines input)) as [|c cs] eqn:E.
    + apply decisionsOf_nil_iff in E. contradiction.
    + exists (c :: cs). split; [reflexivity|]. split.
      * symmetry. eapply Forall2_length, Hq.
      * eapply Forall2_impl; [|exact Hq]. cbn beta.
        intros line c' (size & d & Hd & ->). split; [reflexivity|].
        now exists size, d.
Qed.

(** Seven boxes of 500g alone give no operation.  Six boxes of 500g, seven
    boxes of 500g and six boxes of 1kg on three lines: the first and the
    third line get their own candidate in the one operation. *)
Lemma aggregate_one_batch_in_cart_order_witness :
  cart_lines_discounts_generate_run
    (eligible [titled "gid://shopify/CartLine/1" 7 "Cookies 500g"]) = noOperations /\
  let input := eligible [ titled "gid://shopify/CartLine/1" 6 "Cookies 500g";
                          titled "gid://shopify/CartLine/2" 7 "Cookies 500g";
                          titled "gid://shopify/CartLine/3" 6 "Cookies 1kg" ] in
  exists cs,
    cart_lines_discounts_generate_run input =
    {| Output.operations :=
         [ {| Output.productDiscountsAdd :=
                {| Output.selectionStrategy := "ALL";
                   Output.candidates := cs |} |} ] |} /\
    List.length cs = List.length (filter qualifies (cartLines input)) /\
    Forall2 (fun line c =>
               Output.targets c = [targetOf line] /\
               exists size d, lineDecision line = Some (size, d) /\
                              c = candidateFor line size d)
            (filter qualifies (cartLines input)) cs.
Proof.
  split.
  - apply (proj1 (aggregate_one_batch_in_cart_order
                    (eligible [titled "gid://shopify/CartLine/1" 7 "Cookies 500g"])
                    eq_refl)).
    reflexivity.
  - intros input.
    apply (proj2 (aggregate_one_batch_in_cart_order input eq_refl)).
    vm_compute. discriminate.
Defined.

(** ** The eligibility gate *)

Lemma traced_fold ls cs vs :
  fold_left (fun '(candidates, visited) line =>
               (processLine DISCOUNT_CONFIG SIZE_KEYWORDS candidates line,
                (visited ++ [Input.id line])%list))
            ls (cs, vs) =
  (fold_left (processLine DISCOUNT_CONFIG SIZE_KEYWORDS) ls cs,
   (vs ++ map Input.id ls)%list).
Proof.
  revert cs vs; induction ls as [|l ls IH]; intros cs vs; cbn [fold_left map].
  - now rewrite app_nil_r.
  - rewrite IH. now rewrite <- app_assoc.
Qed.

(** The instrumented loop computes the same result. *)
Lemma traced_result input :
  fst (cart_lines_discounts_generate_run_traced input) =
  cart_lines_discounts_generate_run input.
Proof.
  unfold cart_lines_discounts_generate_run_traced, cart_lines_discounts_generate_run,
    cart_lines_discounts_generate_run_in.
  destruct (hasProductDiscountClass input); cbn [negb]; [|reflexivity].
  rewrite traced_fold.
  destruct (fold_left _ _ _); reflexivity.
Qed.

(** Past the gate the loop body is entered for every line of the cart. *)
Lemma traced_visits_all input :
  hasProductDiscountClass input = true ->
  snd (cart_lines_discounts_generate_run_traced input) =
  map Input.id (cartLines input).
Proof.
  intros H. unfold cart_lines_discounts_generate_run_traced.
  rewrite H; cbn [negb]. rewrite traced_fold.
  destruct (fold_left _ _ _); reflexivity.
Qed.

Lemma hasProductDiscountClass_false input :
  (forall d classes,
      Input.discount input = Some d ->
      Input.discountClasses d = Some classes ->
      ~ In "PRODUCT" classes) ->
  hasProductDiscountClass input = false.
Proof.
  unfold hasProductDiscountClass. intros H.
  destruct (Input.discount input) as [d|]; [|reflexivity].
  destruct (Input.discountClasses d) as [classes|] eqn:Hc; [|reflexivity].
  specialize (H d classes eq_refl Hc).
  destruct (existsb _ classes) eqn:E; [|reflexivity].
  apply existsb_exists in E. destruct E as (c & Hin & Heq).
  apply String.eqb_eq in Heq. subst c. contradiction.
Qed.

(** C5. When the invocation declares no discount classes, or declares
    classes that do not include "PRODUCT", the result has no operation
    whatever the cart holds, and the loop body is entered for no line. *)
Theorem ineligible_invocation_no_operations :
  forall input,
    (forall d classes,
        Input.discount input = Some d ->
        Input.discountClasses d = Some classes ->
        ~ In "PRODUCT" classes) ->
    cart_lines_discounts_generate_run input = noOperations /\
    (forall ls, cart_lines_discounts_generate_run (withLines input ls) = noOperations) /\
    cart_lines_discounts_generate_run_traced input = (noOperations, []).
Proof.
  intros input H. apply hasProductDiscountClass_false in H.
  split; [|split].
  - now apply run_ineligible.
  - intros ls. apply run_ineligible. now rewrite hasProductDiscountClass_withLines.
  - unfold cart_lines_discounts_generate_run_traced. now rewrite H.
Qed.

(** An order-class discount on a cart that would otherwise qualify. *)
Lemma ineligible_invocation_no_operations_witness :
  let input :=
    {| Input.cart := Some {| Input.lines := [titled "gid://shopify/CartLine/1" 6 "Cookies 500g"] |};
       Input.discount := Some {| Input.discountClasses := Some ["ORDER"; "SHIPPING"] |} |} in
  cart_lines_discounts_generate_run input = noOperations /\
  (forall ls, cart_lines_discounts_generate_run (withLines input ls) = noOperations) /\
  cart_lines_discounts_generate_run_traced input = (noOperations, []).
Proof.
  intros input. apply (ineligible_invocation_no_operations input).
  intros d classes [= <-] [= <-]. simpl. intuition discriminate.
Defined.

(** ** Skipped lines *)

Lemma decisionsOf_malformed bad : malformed bad -> decisionsOf [bad] = [].
Proof.
  intros H. unfold decisionsOf; cbn [flat_map].
  now rewrite (malformed_no_decision _ H).
Qed.

(** C6. The function is defined on every input and its result is either
    no operation or the one batched operation.  A malformed line (missing
    or non-variant merchandise, no recognisable size signal, quantity not
    in the tier table) contributes nothing and does not disturb the lines
    around it: the result is the one the cart gives without that line.  A
    cart of malformed lines only gives no operation. *)
Theorem malformed_lines_are_skipped :
  (forall input,
      cart_lines_discounts_generate_run input = noOperations \/
      exists c cs, cart_lines_discounts_generate_run input = batch (c :: cs)) /\
  (forall input before bad after,
      malformed bad ->
      cart_lines_discounts_generate_run (withLines input (before ++ bad :: after)) =
      cart_lines_discounts_generate_run (withLines input (before ++ after))) /\
  (forall input,
      Forall malformed (cartLines input) ->
      cart_lines_discounts_generate_run input = noOperations).
Proof.
  split; [|split].
  - intros input. destruct (hasProductDiscountClass input) eqn:He.
    + rewrite (run_eligible _ He).
      destruct (decisionsOf (cartLines input)) as [|c cs]; [now left|].
      right. now exists c, cs.
    + left. now apply run_ineligible.
  - intros input before bad after Hbad.
    destruct (hasProductDiscountClass input) eqn:He.
    + rewrite !run_eligible by (now rewrite hasProductDiscountClass_withLines).
      cbn [cartLines withLines Input.cart Input.lines].
      rewrite !decisionsOf_app, (decisionsOf_cons bad after).
      now rewrite (decisionsOf_malformed _ Hbad).
    + rewrite !run_ineligible by (now rewrite hasProductDiscountClass_withLines).
      reflexivity.
  - intros input Hall. destruct (hasProductDiscountClass input) eqn:He.
    + rewrite (run_eligible _ He).
      replace (decisionsOf (cartLines input)) with (@nil Output.Candidate); [reflexivity|].
      symmetry. induction Hall as [|l ls Hl _ IH]; [reflexivity|].
      rewrite decisionsOf_cons, IH. now rewrite (decisionsOf_malformed _ Hl).
    + now apply run_ineligible.
Qed.

(** A cart whose second line has no merchandise: the line is skipped and
    the lines around it are discounted as without it.  A cart of a gift
    card, an unlabelled variant and seven boxes of 500g gives no
    operation. *)
Lemma malformed_lines_are_skipped_witness :
  (let bad := {| Input.id := "gid://shopify/CartLine/2"; Input.quantity := 6%Z;
                 Input.merchandise := None |} in
   cart_lines_discounts_generate_run
     (withLines (eligible [])
                ([titled "gid://shopify/CartLine/1" 6 "Cookies 500g"] ++
                 bad :: [titled "gid://shopify/CartLine/3" 12 "Cookies 1kg"])) =
   cart_lines_discounts_generate_run
     (withLines (eligible [])
                ([titled "gid://shopify/CartLine/1" 6 "Cookies 500g"] ++
                 [titled "gid://shopify/CartLine/3" 12 "Cookies 1kg"]))) /\
  cart_lines_discounts_generate_run
    (eligible
       [ {| Input.id := "gid://shopify/CartLine/1"; Input.quantity := 6%Z;
            Input.merchandise :=
              Some {| Input.__typename := "CustomProduct"; Input.title := None;
                      Input.sku := None; Input.boxSize := None |} |};
         titled "gid://shopify/CartLine/2" 6 "Cookies";
         titled "gid://shopify/CartLine/3" 7 "Cookies 500g" ]) = noOperations.
Proof.
  split.
  - intros bad. apply (proj1 (proj2 malformed_lines_are_skipped)).
    left. reflexivity.
  - apply (proj2 (proj2 malformed_lines_are_skipped)).
    unfold eligible, cartLines; cbn [Input.cart Input.lines].
    apply Forall_cons; [|apply Forall_cons; [|apply Forall_cons; [|apply Forall_nil]]].
    + right; left. eexists. split; [reflexivity | discriminate].
    + right; right; left. eexists. split; reflexivity.
    + right; right; right. eexists; exists "500g".
      split; [reflexivity | split; [reflexivity | simpl; lia]].
Defined.

(** ** Case and near-variants *)

Lemma caseVariant_texts m m' :
  caseVariant m m' ->
  tagText m = tagText m' /\ titleText m = titleText m' /\ skuText m = skuText m'.
Proof.
  unfold caseVariant, tagText, titleText, skuText.
  intros (Ht & Hs & Hb). repeat split.
  - destruct (Input.boxSize m) as [mf|], (Input.boxSize m') as [mf'|];
      simpl in Hb; try contradiction; [|reflexivity].
    rewrite (sameUpToCase_truthy _ _ Hb).
    apply sameUpToCase_lower in Hb. now rewrite Hb.
  - destruct (Input.title m) as [t|], (Input.title m') as [t'|];
      simpl in Ht; try contradiction; [|reflexivity].
    now apply sameUpToCase_lower.
  - destruct (Input.sku m) as [s|], (Input.sku m') as [s'|];
      simpl in Hs; try contradiction; [|reflexivity].
    now apply sameUpToCase_lower.
Qed.

(** A signal that is, up to letter case, the string [v] classifies as
    [size] from whichever of the three sources it comes, provided [v] is
    in lower case, is not changed by trimming and is not empty. *)
Lemma classify_variant v size v' :
  toLowerCase v = v -> trim v = v -> truthy v = true ->
  firstMatch SIZE_KEYWORDS v = Some size ->
  sameUpToCase v' v ->
  getSizeFromVariant (variant (Some v') None None) = Some size /\
  getSizeFromVariant (variant None (Some v') None) = Some size /\
  getSizeFromVariant (variant None None (Some v')) = Some size.
Proof.
  intros Hl Htrim Htruthy Hm Hv.
  pose proof (sameUpToCase_truthy _ _ Hv) as Htr. rewrite Htruthy in Htr.
  apply sameUpToCase_lower in Hv. rewrite Hl in Hv.
  rewrite !getSizeFromVariant_waterfall.
  unfold tagSize, tagText, titleText, skuText, variant;
    cbn [Input.boxSize Input.title Input.sku option_map Input.value].
  rewrite Htr, Hv, Htrim, Hm. repeat split.
Qed.

Lemma caseVariant_mapSignals f m :
  (forall s, sameUpToCase (f s) s) -> caseVariant (mapSignals f m) m.
Proof.
  intros Hf. unfold caseVariant, mapSignals;
    cbn [Input.title Input.sku Input.boxSize].
  repeat split.
  - destruct (Input.title m); simpl; auto.
  - destruct (Input.sku m); simpl; auto.
  - destruct (Input.boxSize m); simpl; auto.
Qed.

(** C7. Keyword matching ignores letter case: two merchandise records
    whose signals differ only in the case of their letters are classified
    alike, so upper-casing or lower-casing every signal changes nothing.
    The spellings "500g", "500 g" and "0.5kg", in any letter case and from
    any of the three sources, classify as '500g'; "1kg", "1 kg", "1000g"
    and "1000 g" classify as '1kg'. *)
Theorem getSizeFromVariant_case_insensitive :
  (forall m m', caseVariant m m' -> getSizeFromVariant m = getSizeFromVariant m') /\
  (forall m,
      getSizeFromVariant (mapSignals toUpperCaseAscii m) = getSizeFromVariant m /\
      getSizeFromVariant (mapSignals toLowerCase m) = getSizeFromVariant m) /\
  (forall v v',
      In v ["500g"; "500 g"; "0.5kg"] -> sameUpToCase v' v ->
      getSizeFromVariant (variant (Some v') None None) = Some "500g" /\
      getSizeFromVariant (variant None (Some v') None) = Some "500g" /\
      getSizeFromVariant (variant None None (Some v')) = Some "500g") /\
  (forall v v',
      In v ["1kg"; "1 kg"; "1000g"; "1000 g"] -> sameUpToCase v' v ->
      getSizeFromVariant (variant (Some v') None None) = Some "1kg" /\
      getSizeFromVariant (variant None (Some v') None) = Some "1kg" /\
      getSizeFromVariant (variant None None (Some v')) = Some "1kg").
Proof.
  assert (Hcase : forall m m', caseVariant m m' ->
                               getSizeFromVariant m = getSizeFromVariant m').
  { intros m m' H. apply caseVariant_texts in H. destruct H as (Hb & Ht & Hs).
    rewrite !getSizeFromVariant_waterfall. unfold tagSize.
    now rewrite Hb, Ht, Hs. }
  split; [exact Hcase | split; [|split]].
  - intros m. split; apply Hcase, caseVariant_mapSignals.
    + exact sameUpToCase_toUpperCaseAscii.
    + exact sameUpToCase_toLowerCase.
  - intros v v' Hin Hv. simpl in Hin.
    destruct Hin as [<- | [<- | [<- | []]]];
      (apply (fun a b c d => classify_variant _ _ _ a b c d Hv); reflexivity).
  - intros v v' Hin Hv. simpl in Hin.
    destruct Hin as [<- | [<- | [<- | [<- | []]]]];
      (apply (fun a b c d => classify_variant _ _ _ a b c d Hv); reflexivity).
Qed.

(** An upper-case title and a mixed-case tag. *)
Lemma getSizeFromVariant_case_insensitive_witness :
  getSizeFromVariant (variant (Some "COOKIES 500 G") (Some "ck-01") None) =
  getSizeFromVariant (variant (Some "cookies 500 g") (Some "CK-01") None) /\
  (getSizeFromVariant (variant (Some "0.5KG") None None) = Some "500g" /\
   getSizeFromVariant (variant None (Some "0.5KG") None) = Some "500g" /\
   getSizeFromVariant (variant None None (Some "0.5KG")) = Some "500g") /\
  (getSizeFromVariant (variant (Some "1 Kg") None None) = Some "1kg" /\
   getSizeFromVariant (variant None (Some "1 Kg") None) = Some "1kg" /\
   getSizeFromVariant (variant None None (Some "1 Kg")) = Some "1kg").
Proof.
  split; [|split].
  - apply (proj1 getSizeFromVariant_case_insensitive).
    repeat split; simpl; apply sameUpToCase_lower; reflexivity.
  - apply (proj1 (proj2 (proj2 getSizeFromVariant_case_insensitive)) "0.5kg");
      [simpl; auto | apply sameUpToCase_lower; reflexivity].
  - apply (proj2 (proj2 (proj2 getSizeFromVariant_case_insensitive)) "1 kg");
      [simpl; auto | apply sameUpToCase_lower; reflexivity].
Defined.

(** ** Overlapping keywords *)

(** C8. When the text of the signal that decides the classification
    contains keywords of more than one category, the category declared
    first, '500g', is returned - for the tag, for the title when the tag
    yields nothing, and for the sku when tag and title yield nothing. *)
Theorem getSizeFromVariant_tie_first_declared :
  (forall text size size',
      size <> size' ->
      matchesCategory text size = true ->
      matchesCategory text size' = true ->
      firstMatch SIZE_KEYWORDS text = Some "500g") /\
  (forall m text size size',
      size <> size' ->
      tagText m = Some text ->
      matchesCategory text size = true ->
      matchesCategory text size' = true ->
      getSizeFromVariant m = Some "500g") /\
  (forall m size size',
      size <> size' ->
      tagSize m = None ->
      matchesCategory (titleText m) size = true ->
      matchesCategory (titleText m) size' = true ->
      getSizeFromVariant m = Some "500g") /\
  (forall m size size',
      size <> size' ->
      tagSize m = None ->
      firstMatch SIZE_KEYWORDS (titleText m) = None ->
      matchesCategory (skuText m) size = true ->
      matchesCategory (skuText m) size' = true ->
      getSizeFromVariant m = Some "500g").
Proof.
  split; [|split; [|split]].
  - exact firstMatch_tie.
  - intros m text size size' Hne Ht H1 H2.
    rewrite getSizeFromVariant_waterfall. unfold tagSize. rewrite Ht.
    now rewrite (firstMatch_tie _ _ _ Hne H1 H2).
  - intros m size size' Hne Ht H1 H2.
    rewrite getSizeFromVariant_waterfall, Ht.
    now rewrite (firstMatch_tie _ _ _ Hne H1 H2).
  - intros m size size' Hne Ht Hti H1 H2.
    rewrite getSizeFromVariant_waterfall, Ht, Hti.
    exact (firstMatch_tie _ _ _ Hne H1 H2).
Qed.

(** A text, a tag, a title and a sku that each mention 1kg before 500g
    still classify as '500g'. *)
Lemma getSizeFromVariant_tie_first_declared_witness :
  firstMatch SIZE_KEYWORDS "mixed pack 1kg + 500g" = Some "500g" /\
  getSizeFromVariant (variant (Some "Cookies 1kg") None (Some "1KG or 500G")) =
  Some "500g" /\
  getSizeFromVariant (variant (Some "Mixed pack 1kg + 500g") None None) = Some "500g" /\
  getSizeFromVariant (variant (Some "Mixed pack") (Some "MIX-1KG-500G") None) =
  Some "500g".
Proof.
  split; [|split; [|split]].
  - apply (proj1 getSizeFromVariant_tie_first_declared _ "1kg" "500g");
      [discriminate | reflexivity | reflexivity].
  - apply (proj1 (proj2 getSizeFromVariant_tie_first_declared)
             _ "1kg or 500g" "1kg" "500g");
      [discriminate | reflexivity | reflexivity | reflexivity].
  - apply (proj1 (proj2 (proj2 getSizeFromVariant_tie_first_declared))
             _ "1kg" "500g");
      [discriminate | reflexivity | reflexivity | reflexivity].
  - apply (proj2 (proj2 (proj2 getSizeFromVariant_tie_first_declared))
             _ "1kg" "500g");
      [discriminate | reflexivity | reflexivity | reflexivity | reflexivity].
Defined.

(** ** Message and amount rendering *)

Lemma toFixed_0 x :
  toFixed 0 x =
  (if (Qnum x <? 0)%Z then "-" else "") ++
  digits (nearest 0 (if (Qnum x <? 0)%Z then (- x)%Q else x)).
Proof. reflexivity. Qed.

Lemma magnitude_Qabs x : (if (Qnum x <? 0)%Z then (- x)%Q else x) = Qabs x.
Proof. destruct x as [[|p|p] d]; reflexivity. Qed.

Lemma sign_Qle_bool x : (Qnum x <? 0)%Z = negb (Qle_bool 0 x).
Proof.
  unfold Qle_bool; cbn [Qnum Qden]. rewrite Z.mul_1_r.
  destruct (Qnum x); reflexivity.
Qed.

(** Rounding to the whole unit is to the nearest integer, a half going
    up. *)
Lemma nearest_0_bounds a :
  (a - (1 # 2) < inject_Z (nearest 0 a) /\ inject_Z (nearest 0 a) <= a + (1 # 2))%Q.
Proof.
  unfold nearest. change (inject_Z (10 ^ Z.of_nat 0)) with 1%Q.
  set (x := (a * 1 + (1 # 2))%Q).
  pose proof (Qfloor_le x) as Hle. pose proof (Qlt_floor x) as Hlt.
  rewrite inject_Z_plus in Hlt. change (inject_Z 1) with 1%Q in Hlt.
  subst x. split; lra.
Qed.

Lemma nearest_0_nonneg a : (0 <= a)%Q -> (0 <= nearest 0 a)%Z.
Proof.
  intros Ha. destruct (nearest_0_bounds a) as [Hlo _].
  assert (H : (inject_Z (-1) < inject_Z (nearest 0 a))%Q).
  { change (inject_Z (-1)) with (-1)%Q. lra. }
  rewrite <- Zlt_Qlt in H. lia.
Qed.

Lemma toString_nonneg n : (0 <= n)%Z -> toString n = digits n.
Proof.
  intros Hn. unfold toString.
  destruct (Z.ltb_spec n 0) as [Hneg|_]; [lia | reflexivity].
Qed.

(** What a single qualifying line of an eligible cart yields. *)
Lemma run_single line m size :
  Input.merchandise line = Some m ->
  Input.__typename m = "ProductVariant" ->
  getSizeFromVariant m = Some size ->
  cart_lines_discounts_generate_run (eligible [line]) =
  match calculateDiscount size (Input.quantity line) with
  | Some d => batch [candidateFor line size d]
  | None => noOperations
  end.
Proof.
  intros Hm Ht Hs. rewrite run_eligible by reflexivity.
  unfold eligible, cartLines, decisionsOf, lineDecision;
    cbn [Input.cart Input.lines flat_map].
  rewrite Hm, Ht, Hs; cbn [String.eqb Ascii.eqb Bool.eqb].
  change ("ProductVariant" =? "ProductVariant")%string with true; cbn iota.
  destruct (calculateDiscount size (Input.quantity line)); reflexivity.
Qed.

(** C9. The message is the quantity, "x ", the category, " Bundle Deal -
    Save R" and the savings rounded to the nearest whole unit (a half going
    away from zero, a minus sign before the digits of a negative amount).
    A line of six that is classified '500g' gets
    "6x 500g Bundle Deal - Save R24". *)
Theorem getDiscountMessage_template :
  (forall quantity size savings,
      (Qabs savings < inject_Z (10 ^ 21))%Q ->
      exists n : Z,
        (0 <= n)%Z /\
        (Qabs savings - (1 # 2) < inject_Z n)%Q /\
        (inject_Z n <= Qabs savings + (1 # 2))%Q /\
        getDiscountMessage quantity size savings =
        toString quantity ++ "x " ++ size ++ " Bundle Deal - Save R" ++
        (if Qle_bool 0 savings then "" else "-") ++ toString n) /\
  (forall line m,
      Input.merchandise line = Some m ->
      Input.__typename m = "ProductVariant" ->
      getSizeFromVariant m = Some "500g" ->
      Input.quantity line = 6%Z ->
      cart_lines_discounts_generate_run (eligible [line]) =
      batch [candidate (Input.id line) "6x 500g Bundle Deal - Save R24" "24.00"]).
Proof.
  split.
  - intros quantity size savings _.
    exists (nearest 0 (Qabs savings)).
    destruct (nearest_0_bounds (Qabs savings)) as [Hlo Hhi].
    pose proof (nearest_0_nonneg _ (Qabs_nonneg savings)) as Hn.
    repeat (split; [assumption|]).
    unfold getDiscountMessage. rewrite toFixed_0, magnitude_Qabs, sign_Qle_bool.
    rewrite (toString_nonneg _ Hn).
    now destruct (Qle_bool 0 savings).
  - intros line m Hm Ht Hs Hq.
    rewrite (run_single _ _ _ Hm Ht Hs). unfold candidateFor. rewrite Hq.
    reflexivity.
Qed.

(** Savings of 167.50 on twelve boxes of 1kg are shown as R168; six boxes
    titled "Choc Chip 500g" get the message of the 500g tier. *)
Lemma getDiscountMessage_template_witness :
  (exists n : Z,
      (0 <= n)%Z /\
      (Qabs (335 # 2) - (1 # 2) < inject_Z n)%Q /\
      (inject_Z n <= Qabs (335 # 2) + (1 # 2))%Q /\
      getDiscountMessage 12 "1kg" (335 # 2) =
      toString 12 ++ "x " ++ "1kg" ++ " Bundle Deal - Save R" ++
      (if Qle_bool 0 (335 # 2) then "" else "-") ++ toString n) /\
  cart_lines_discounts_generate_run (eligible [titled "line-1" 6 "Choc Chip 500g"]) =
  batch [candidate "line-1" "6x 500g Bundle Deal - Save R24" "24.00"].
Proof.
  split.
  - apply (proj1 getDiscountMessage_template 12%Z "1kg" (335 # 2)).
    reflexivity.
  - apply (proj2 getDiscountMessage_template
             (titled "line-1" 6 "Choc Chip 500g")
             (variant (Some "Choc Chip 500g") None None));
      reflexivity.
Defined.

(** ** Keywords inside longer words *)

Lemma matchesAny_intro text keywords kw :
  In kw keywords -> includes text (toLowerCase kw) = true ->
  matchesAny text keywords = true.
Proof.
  intros Hin Hinc. unfold matchesAny. apply existsb_exists. now exists kw.
Qed.

Lemma matchesCategory_500g_infix pre post :
  matchesCategory (toLowerCase (pre ++ "500g" ++ post)) "500g" = true.
Proof.
  unfold matchesCategory, SIZE_KEYWORDS; cbn [lookup].
  change ("500g" =? "500g")%string with true; cbn iota.
  apply (matchesAny_intro _ _ "500g"); [simpl; auto|].
  apply includes_iff. exists (toLowerCase pre), (toLowerCase post).
  now rewrite !toLowerCase_app.
Qed.

(** C10. Matching is by containment: a title that contains "500g"
    anywhere, as "1500g" and "2500g" do, classifies as '500g' when the tag
    yields nothing, and a line of 6 or 12 of it receives the 500g tier
    discount. *)
Theorem keyword_infix_classifies_500g :
  (forall m pre post,
      tagSize m = None ->
      Input.title m = Some (pre ++ "500g" ++ post) ->
      getSizeFromVariant m = Some "500g") /\
  (forall line m pre post,
      Input.merchandise line = Some m ->
      Input.__typename m = "ProductVariant" ->
      tagSize m = None ->
      Input.title m = Some (pre ++ "500g" ++ post) ->
      (Input.quantity line = 6%Z ->
       cart_lines_discounts_generate_run (eligible [line]) =
       batch [candidate (Input.id line) "6x 500g Bundle Deal - Save R24" "24.00"]) /\
      (Input.quantity line = 12%Z ->
       cart_lines_discounts_generate_run (eligible [line]) =
       batch [candidate (Input.id line) "12x 500g Bundle Deal - Save R108" "108.00"])) /\
  (forall i,
      cart_lines_discounts_generate_run (eligible [titled i 6 "Rusks 1500g"]) =
      batch [candidate i "6x 500g Bundle Deal - Save R24" "24.00"] /\
      cart_lines_discounts_generate_run (eligible [titled i 12 "Rusks 2500g"]) =
      batch [candidate i "12x 500g Bundle Deal - Save R108" "108.00"]).
Proof.
  assert (Hsize : forall m pre post,
             tagSize m = None ->
             Input.title m = Some (pre ++ "500g" ++ post) ->
             getSizeFromVariant m = Some "500g").
  { intros m pre post Htag Htitle.
    rewrite getSizeFromVariant_waterfall, Htag, firstMatch_SIZE_KEYWORDS.
    unfold titleText. rewrite Htitle.
    now rewrite matchesCategory_500g_infix. }
  split; [exact Hsize | split].
  - intros line m pre post Hm Ht Htag Htitle.
    pose proof (Hsize _ _ _ Htag Htitle) as Hs.
    split; intros Hq; rewrite (run_single _ _ _ Hm Ht Hs);
      unfold candidateFor; rewrite Hq; reflexivity.
  - intros i. split; reflexivity.
Qed.

(** "Rusks 1500g" classifies as '500g'; six of them get the 500g tier
    discount of 24 and twelve of them the one of 108. *)
Lemma keyword_infix_classifies_500g_witness :
  getSizeFromVariant (variant (Some "Rusks 1500g") None None) = Some "500g" /\
  cart_lines_discounts_generate_run (eligible [titled "line-1" 6 "Rusks 1500g"]) =
  batch [candidate "line-1" "6x 500g Bundle Deal - Save R24" "24.00"] /\
  cart_lines_discounts_generate_run (eligible [titled "line-1" 12 "Rusks 1500g"]) =
  batch [candidate "line-1" "12x 500g Bundle Deal - Save R108" "108.00"].
Proof.
  split; [|split].
  - apply (proj1 keyword_infix_classifies_500g
             (variant (Some "Rusks 1500g") None None) "Rusks 1" "");
      reflexivity.
  - apply (proj1 (proj1 (proj2 keyword_infix_classifies_500g)
                    (titled "line-1" 6 "Rusks 1500g")
                    (variant (Some "Rusks 1500g") None None) "Rusks 1" ""
                    eq_refl eq_refl eq_refl eq_refl)).
    reflexivity.
  - apply (proj2 (proj1 (proj2 keyword_infix_classifies_500g)
                    (titled "line-1" 12 "Rusks 1500g")
                    (variant (Some "Rusks 1500g") None None) "Rusks 1" ""
                    eq_refl eq_refl eq_refl eq_refl)).
    reflexivity.
Defined.

(** ** Worked scenarios *)

(** Six boxes whose title contains "500g": amount 24.00. *)
Example scenario_six_500g :
  cart_lines_discounts_generate_run (eligible [titled "line-1" 6 "Choc Chip 500g"]) =
  batch [candidate "line-1" "6x 500g Bundle Deal - Save R24" "24.00"].
Proof. reflexivity. Qed.

(** Twelve boxes whose title contains "1kg": amount 168.00. *)
Example scenario_twelve_1kg :
  cart_lines_discounts_generate_run (eligible [titled "line-1" 12 "Choc Chip 1kg"]) =
  batch [candidate "line-1" "12x 1kg Bundle Deal - Save R168" "168.00"].
Proof. reflexivity. Qed.

(** Seven boxes of 500g: no decision. *)
Example scenario_seven_500g :
  cart_lines_discounts_generate_run (eligible [titled "line-1" 7 "Choc Chip 500g"]) =
  noOperations.
Proof. reflexivity. Qed.

(** Six of each size on two lines: both in the one operation. *)
Example scenario_mixed_sizes :
  cart_lines_discounts_generate_run
    (eligible [titled "line-1" 6 "Choc Chip 500g"; titled "line-2" 6 "Choc Chip 1kg"]) =
  batch [candidate "line-1" "6x 500g Bundle Deal - Save R24" "24.00";
         candidate "line-2" "6x 1kg Bundle Deal - Save R54" "54.00"].
Proof. reflexivity. Qed.

(** No title, no sku, tag value "1000g", twelve boxes: amount 168.00. *)
Example scenario_tag_only :
  cart_lines_discounts_generate_run
    (eligible [ {| Input.id := "line-1"; Input.quantity := 12%Z;
                   Input.merchandise := Some (variant None None (Some "1000g")) |} ]) =
  batch [candidate "line-1" "12x 1kg Bundle Deal - Save R168" "168.00"].
Proof. reflexivity. Qed.

(** Only the single space of the keywords "500 g", "1 kg" and "1000 g" is
    recognised inside a size: runs of spaces are not collapsed. *)
Remark double_space_not_recognised :
  getSizeFromVariant (variant (Some "Choc Chip 500  g") None None) = None /\
  getSizeFromVariant (variant (Some "Choc Chip 0.5 kg") None None) = None.
Proof. split; reflexivity. Qed.

(** * Further properties of the source *)

(** ** Which variants are classified *)

Lemma firstMatch_None_iff text :
  firstMatch SIZE_KEYWORDS text = None <-> mentionsNoSize text.
Proof.
  rewrite firstMatch_SIZE_KEYWORDS.
  unfold matchesCategory, mentionsNoSize, allKeywords, SIZE_KEYWORDS;
    cbn [lookup flat_map snd app].
  change ("500g" =? "500g")%string with true.
  change ("500g" =? "1kg")%string with false.
  change ("1kg" =? "1kg")%string with true. cbn iota.
  unfold matchesAny; cbn [existsb]. cbn [toLowerCase lower_char].
  repeat match goal with
         | |- context [lower_char ?c] =>
             let v := eval vm_compute in (lower_char c) in
             change (lower_char c) with v
         end.
  split.
  - intros H kw Hin.
    destruct (includes text "500g") eqn:E1; [discriminate|].
    destruct (includes text "500 g") eqn:E2; [discriminate|].
    destruct (includes text "500gr") eqn:E3; [discriminate|].
    destruct (includes text "0.5kg") eqn:E4; [discriminate|].
    destruct (includes text "1kg") eqn:E5; [discriminate|].
    destruct (includes text "1 kg") eqn:E6; [discriminate|].
    destruct (includes text "1000g") eqn:E7; [discriminate|].
    destruct (includes text "1000 g") eqn:E8; [discriminate|].
    simpl in Hin. intuition (subst; assumption).
  - intros H.
    rewrite (H "500g"), (H "500 g"), (H "500gr"), (H "0.5kg"),
      (H "1kg"), (H "1 kg"), (H "1000g"), (H "1000 g"); simpl; auto 10.
Qed.

(** The classification of a text, spelled out on the eight keywords. *)
Lemma firstMatch_includes text :
  firstMatch SIZE_KEYWORDS text =
  if includes text "500g" || (includes text "500 g" ||
     (includes text "500gr" || includes text "0.5kg"))
  then Some "500g"
  else if includes text "1kg" || (includes text "1 kg" ||
          (includes text "1000g" || includes text "1000 g"))
       then Some "1kg"
       else None.
Proof.
  rewrite firstMatch_SIZE_KEYWORDS.
  unfold matchesCategory, SIZE_KEYWORDS; cbn [lookup].
  change ("500g" =? "500g")%string with true.
  change ("500g" =? "1kg")%string with false.
  change ("1kg" =? "1kg")%string with true. cbn iota.
  unfold matchesAny; cbn [existsb]. rewrite !orb_false_r. reflexivity.
Qed.

(** X1. [getSizeFromVariant] returns '500g', '1kg' or nothing, and it
    returns nothing exactly when none of the texts it consults - the tag
    when its value is non-empty, the title and the sku - contains any of
    the eight keywords. *)
Theorem getSizeFromVariant_none_iff :
  forall m,
    (getSizeFromVariant m = None \/
     getSizeFromVariant m = Some "500g" \/
     getSizeFromVariant m = Some "1kg") /\
    (getSizeFromVariant m = None <->
     (forall text, tagText m = Some text -> mentionsNoSize text) /\
     mentionsNoSize (titleText m) /\
     mentionsNoSize (skuText m)).
Proof.
  intros m. split.
  - destruct (getSizeFromVariant m) as [size|] eqn:E; [|now left].
    right. destruct (getSizeFromVariant_cases _ _ E) as [-> | ->]; auto.
  - rewrite getSizeFromVariant_waterfall. unfold tagSize. split.
    + intros H. destruct (tagText m) as [text|].
      * destruct (firstMatch SIZE_KEYWORDS text) eqn:Et; [discriminate|].
        destruct (firstMatch SIZE_KEYWORDS (titleText m)) eqn:Eti; [discriminate|].
        split; [|split]; try (now apply firstMatch_None_iff).
        intros text' [= <-]. now apply firstMatch_None_iff.
      * destruct (firstMatch SIZE_KEYWORDS (titleText m)) eqn:Eti; [discriminate|].
        split; [|split]; try (now apply firstMatch_None_iff).
        discriminate.
    + intros (Ht & Hti & Hs).
      apply firstMatch_None_iff in Hti, Hs. rewrite Hti, Hs.
      destruct (tagText m) as [text|]; [|reflexivity].
      specialize (Ht text eq_refl). apply firstMatch_None_iff in Ht.
      now rewrite Ht.
Qed.

(** A variant labelled only "Large box" is not classified. *)
Lemma getSizeFromVariant_none_iff_witness :
  getSizeFromVariant (variant (Some "Large box") (Some "CK-L") (Some "large")) = None.
Proof.
  apply (proj2 (getSizeFromVariant_none_iff
                  (variant (Some "Large box") (Some "CK-L") (Some "large")))).
  split; [|split].
  - intros text [= <-]. apply firstMatch_None_iff. reflexivity.
  - apply firstMatch_None_iff. reflexivity.
  - apply firstMatch_None_iff. reflexivity.
Defined.

(** ** Trimming the tag *)

Lemma string_app_assoc (a b c : string) : (a ++ b) ++ c = a ++ b ++ c.
Proof. induction a as [|x a IH]; simpl; [reflexivity | now rewrite IH]. Qed.

Lemma includes_trimStart s kw :
  startsNonSpace kw = true -> includes (trimStart s) kw = includes s kw.
Proof.
  intros Hkw. induction s as [|a s IH]; [reflexivity|].
  cbn [trimStart]. destruct (is_space a) eqn:Ea; [|reflexivity].
  rewrite IH. cbn [includes].
  destruct kw as [|c kw]; [discriminate|]. cbn [startsNonSpace] in Hkw.
  cbn [prefix]. destruct (ascii_dec c a) as [->|_]; [|reflexivity].
  rewrite Ea in Hkw. discriminate.
Qed.

Lemma trimEnd_decomp s :
  exists ws, s = trimEnd s ++ ws /\ allSpace ws = true.
Proof.
  induction s as [|a s (ws & Hs & Hws)]; [now exists ""|].
  cbn [trimEnd]. destruct (trimEnd s) as [|b t] eqn:Et.
  - simpl in Hs. subst ws. destruct (is_space a) eqn:Ea.
    + exists (String a s). split; [reflexivity|]. cbn [allSpace]. now rewrite Ea.
    + now exists s.
  - exists ws. split; [|exact Hws]. cbn [append]. now rewrite Hs at 1.
Qed.

Lemma allSpace_not_endsNonSpace u post :
  allSpace (u ++ post) = true -> endsNonSpace u = false.
Proof.
  induction u as [|c u IH]; [reflexivity|].
  cbn [append allSpace]. intros H. apply andb_true_iff in H. destruct H as [Hc Hu].
  destruct u as [|d u]; [cbn; now rewrite Hc|].
  exact (IH Hu).
Qed.

Lemma endsNonSpace_app pre kw :
  endsNonSpace kw = true -> endsNonSpace (pre ++ kw) = true.
Proof.
  intros Hkw. induction pre as [|c pre IH]; [exact Hkw|].
  cbn [append]. destruct (pre ++ kw) eqn:E; [discriminate IH | exact IH].
Qed.

(** A word that ends in a visible character and occurs in [t ++ ws], with
    [ws] white space, ends inside [t]. *)
Lemma split_before_space u :
  forall t ws post,
    allSpace ws = true -> endsNonSpace u = true ->
    t ++ ws = u ++ post -> exists post', t = u ++ post'.
Proof.
  induction u as [|c u IH]; intros t ws post Hws Hu H; [discriminate|].
  destruct t as [|a t].
  - simpl in H. subst ws.
    apply (allSpace_not_endsNonSpace (String c u) post) in Hws. congruence.
  - cbn [append] in H. inversion H; subst a.
    destruct u as [|d u].
    + now exists t.
    + destruct (IH t ws post Hws Hu H2) as [post' ->]. now exists post'.
Qed.

Lemma includes_app_space t ws kw :
  allSpace ws = true -> endsNonSpace kw = true ->
  includes (t ++ ws) kw = includes t kw.
Proof.
  intros Hws Hkw.
  destruct (includes t kw) eqn:Et.
  - apply includes_iff in Et. destruct Et as (pre & post & ->).
    apply includes_iff. exists pre, (post ++ ws).
    now rewrite !string_app_assoc.
  - destruct (includes (t ++ ws) kw) eqn:E; [|reflexivity].
    apply includes_iff in E. destruct E as (pre & post & E).
    rewrite <- string_app_assoc in E.
    destruct (split_before_space (pre ++ kw) t ws post Hws
                (endsNonSpace_app _ _ Hkw) E) as [post' Ht].
    assert (Hin : includes t kw = true).
    { apply includes_iff. exists pre, post'. now rewrite <- string_app_assoc. }
    congruence.
Qed.

Lemma includes_trim s kw :
  startsNonSpace kw = true -> endsNonSpace kw = true ->
  includes (trim s) kw = includes s kw.
Proof.
  intros Hs He. unfold trim.
  destruct (trimEnd_decomp (trimStart s)) as (ws & Hdec & Hws).
  rewrite <- (includes_trimStart s kw Hs).
  rewrite Hdec at 2. now rewrite includes_app_space.
Qed.

Lemma firstMatch_trim table text :
  (forall size kws kw,
      In (size, kws) table -> In kw kws ->
      startsNonSpace (toLowerCase kw) = true /\
      endsNonSpace (toLowerCase kw) = true) ->
  firstMatch table (trim text) = firstMatch table text.
Proof.
  induction table as [|[size kws] table IH]; intros H; [reflexivity|].
  cbn [firstMatch].
  assert (Hm : matchesAny (trim text) kws = matchesAny text kws).
  { unfold matchesAny.
    assert (Hk : forall kw, In kw kws ->
                            startsNonSpace (toLowerCase kw) = true /\
                            endsNonSpace (toLowerCase kw) = true).
    { intros kw Hin. apply (H size kws kw); simpl; auto. }
    clear H IH. induction kws as [|kw kws IHk]; [reflexivity|].
    cbn [existsb]. destruct (Hk kw (or_introl eq_refl)) as [H1 H2].
    rewrite (includes_trim _ _ H1 H2), IHk; [reflexivity|].
    intros kw' Hin. apply Hk. now right. }
  rewrite Hm, IH; [reflexivity|].
  intros sz ks kw Hin. apply (H sz ks kw). now right.
Qed.

Lemma SIZE_KEYWORDS_shape size kws kw :
  In (size, kws) SIZE_KEYWORDS -> In kw kws ->
  startsNonSpace (toLowerCase kw) = true /\ endsNonSpace (toLowerCase kw) = true.
Proof.
  simpl. intros [[= <- <-] | [[= <- <-] | []]] Hin; simpl in Hin;
    repeat (destruct Hin as [<- | Hin]; [split; reflexivity|]); contradiction.
Qed.

(** X2. Trimming the tag value never changes the classification: no
    keyword starts or ends with white space, so a text contains a keyword
    exactly when the trimmed text does.  A non-empty tag value is therefore
    classified exactly as the same string would be as a title. *)
Theorem tag_trim_is_immaterial :
  (forall table text,
      (forall size kws kw,
          In (size, kws) table -> In kw kws ->
          startsNonSpace (toLowerCase kw) = true /\
          endsNonSpace (toLowerCase kw) = true) ->
      firstMatch table (trim text) = firstMatch table text) /\
  (forall text, firstMatch SIZE_KEYWORDS (trim text) = firstMatch SIZE_KEYWORDS text) /\
  (forall v,
      getSizeFromVariant (variant None None (Some v)) =
      getSizeFromVariant (variant (Some v) None None)).
Proof.
  split; [exact firstMatch_trim | split].
  - intros text. apply firstMatch_trim. exact SIZE_KEYWORDS_shape.
  - intros v. rewrite !getSizeFromVariant_waterfall.
    unfold tagSize, tagText, titleText, skuText, variant;
      cbn [Input.boxSize Input.title Input.sku option_map Input.value].
    destruct v as [|c v]; [reflexivity|]. cbn [truthy].
    rewrite (firstMatch_trim SIZE_KEYWORDS _ SIZE_KEYWORDS_shape).
    change (toLowerCase "") with "".
    destruct (firstMatch SIZE_KEYWORDS (toLowerCase (String c v))); reflexivity.
Qed.

(** A tag value padded with blanks and tabs. *)
Lemma tag_trim_is_immaterial_witness :
  firstMatch [("2kg", ["2kg"; "2 KG"])] (trim "   family 2 kg  ") =
  firstMatch [("2kg", ["2kg"; "2 KG"])] "   family 2 kg  ".
Proof.
  apply (proj1 tag_trim_is_immaterial).
  intros size kws kw [[= <- <-] | []] [<- | [<- | []]]; split; reflexivity.
Defined.

(** ** A keyword that never decides *)

Lemma includes_500gr text : includes text "500gr" = true -> includes text "500g" = true.
Proof.
  intros H. apply includes_iff in H. destruct H as (pre & post & ->).
  apply includes_iff. exists pre, ("r" ++ post). reflexivity.
Qed.

Lemma getSizeFromVariantIn_ext table table' m :
  (forall text, firstMatch table text = firstMatch table' text) ->
  getSizeFromVariantIn table m = getSizeFromVariantIn table' m.
Proof.
  intros H. unfold getSizeFromVariantIn.
  destruct (Input.boxSize m) as [mf|];
    [destruct (truthy (Input.value mf))|]; now rewrite !H.
Qed.

Lemma processLine_ext config table table' acc line :
  (forall text, firstMatch table text = firstMatch table' text) ->
  processLine config table acc line = processLine config table' acc line.
Proof.
  intros H. unfold processLine.
  destruct (Input.merchandise line) as [m|]; [|reflexivity].
  now rewrite (getSizeFromVariantIn_ext _ _ m H).
Qed.

Lemma firstMatch_without_500gr text :
  firstMatch SIZE_KEYWORDS_without_500gr text = firstMatch SIZE_KEYWORDS text.
Proof.
  rewrite firstMatch_includes.
  unfold SIZE_KEYWORDS_without_500gr; cbn [firstMatch].
  unfold matchesAny; cbn [existsb]. rewrite !orb_false_r.
  change (toLowerCase "500g") with "500g".
  change (toLowerCase "500 g") with "500 g".
  change (toLowerCase "0.5kg") with "0.5kg".
  change (toLowerCase "1kg") with "1kg".
  change (toLowerCase "1 kg") with "1 kg".
  change (toLowerCase "1000g") with "1000g".
  change (toLowerCase "1000 g") with "1000 g".
  destruct (includes text "500g") eqn:E1; [reflexivity|].
  destruct (includes text "500gr") eqn:E2; [|reflexivity].
  apply includes_500gr in E2. congruence.
Qed.

(** X3. The keyword "500gr" never decides anything: every text that
    contains it contains "500g", which is tried first.  Classification and
    the whole function behave the same on the keyword table without it. *)
Theorem keyword_500gr_is_redundant :
  (forall text, includes text "500gr" = true -> includes text "500g" = true) /\
  (forall m, getSizeFromVariantIn SIZE_KEYWORDS_without_500gr m = getSizeFromVariant m) /\
  (forall input,
      cart_lines_discounts_generate_run_in DISCOUNT_CONFIG SIZE_KEYWORDS_without_500gr input =
      cart_lines_discounts_generate_run input).
Proof.
  split; [exact includes_500gr | split].
  - intros m. apply getSizeFromVariantIn_ext, firstMatch_without_500gr.
  - intros input.
    unfold cart_lines_discounts_generate_run, cart_lines_discounts_generate_run_in.
    destruct (negb (hasProductDiscountClass input)); [reflexivity|].
    assert (Hfold : forall ls acc,
               fold_left (processLine DISCOUNT_CONFIG SIZE_KEYWORDS_without_500gr) ls acc =
               fold_left (processLine DISCOUNT_CONFIG SIZE_KEYWORDS) ls acc).
    { induction ls as [|l ls IH]; intros acc; [reflexivity|].
      cbn [fold_left].
      rewrite (processLine_ext _ _ _ acc l firstMatch_without_500gr). apply IH. }
    now rewrite Hfold.
Qed.

(** A title spelled "500gr" is found through "500g". *)
Lemma keyword_500gr_is_redundant_witness :
  includes "oat crunch 500gr" "500g" = true.
Proof.
  apply (proj1 keyword_500gr_is_redundant). reflexivity.
Defined.

(** ** What a result can contain *)

Lemma lineDecision_inv line size d :
  lineDecision line = Some (size, d) ->
  exists m,
    Input.merchandise line = Some m /\
    Input.__typename m = "ProductVariant" /\
    getSizeFromVariant m = Some size /\
    calculateDiscount size (Input.quantity line) = Some d.
Proof.
  unfold lineDecision.
  destruct (Input.merchandise line) as [m|]; [|discriminate].
  destruct (String.eqb_spec (Input.__typename m) "ProductVariant") as [Ht|_];
    [|discriminate].
  destruct (getSizeFromVariant m) as [sz|] eqn:Es; [|discriminate].
  destruct (calculateDiscount sz (Input.quantity line)) as [d'|] eqn:E; [|discriminate].
  intros [= <- <-]. exists m. auto.
Qed.

Lemma calculateDiscount_Some_quantity size q d :
  calculateDiscount size q = Some d -> q = 6%Z \/ q = 12%Z.
Proof.
  intros H.
  destruct (Z.eq_dec q 6) as [|H6]; [now left|].
  destruct (Z.eq_dec q 12) as [|H12]; [now right|].
  unfold calculateDiscount in H. rewrite calculateDiscountIn_not_tier in H; [discriminate|].
  destruct (tierKeys_cases size) as [-> | ->]; simpl; intuition congruence.
Qed.

(** X4. Whatever the input, every candidate of the result targets exactly
    one line of the cart; that line is a product variant with a recognised
    size and a quantity of 6 or 12, and the candidate carries one of four
    message and amount pairs, fixed by the size and the quantity. *)
Theorem emitted_candidates_are_tier_outcomes :
  forall input c,
    In c (emitted (cart_lines_discounts_generate_run input)) ->
    exists line m size msg amt,
      In line (cartLines input) /\
      Input.merchandise line = Some m /\
      Input.__typename m = "ProductVariant" /\
      getSizeFromVariant m = Some size /\
      In (size, Input.quantity line, msg, amt) OUTCOMES /\
      c = candidate (Input.id line) msg amt.
Proof.
  intros input c Hin.
  destruct (hasProductDiscountClass input) eqn:He;
    [|rewrite (run_ineligible _ He) in Hin; contradiction].
  rewrite (emitted_run _ He) in Hin. apply decisionsOf_In in Hin.
  destruct Hin as (line & size & d & Hl & Hd & ->).
  apply lineDecision_inv in Hd. destruct Hd as (m & Hm & Ht & Hs & Hc).
  pose proof (calculateDiscount_Some_quantity _ _ _ Hc) as Hq.
  exists line, m, size. unfold candidateFor.
  destruct (getSizeFromVariant_cases _ _ Hs) as [-> | ->];
    destruct Hq as [Hq | Hq]; rewrite Hq in Hc |- *;
    vm_compute in Hc; injection Hc as <-;
    do 2 eexists; (do 4 (split; [eassumption|])); (split; [|reflexivity]);
    simpl; auto 6.
Qed.

(** The one candidate of a cart with twelve boxes of 1kg. *)
Lemma emitted_candidates_are_tier_outcomes_witness :
  exists line m size msg amt,
    In line (cartLines (eligible [titled "line-1" 12 "Ginger 1kg"])) /\
    Input.merchandise line = Some m /\
    Input.__typename m = "ProductVariant" /\
    getSizeFromVariant m = Some size /\
    In (size, Input.quantity line, msg, amt) OUTCOMES /\
    candidate "line-1" "12x 1kg Bundle Deal - Save R168" "168.00" =
    candidate (Input.id line) msg amt.
Proof.
  apply (emitted_candidates_are_tier_outcomes
           (eligible [titled "line-1" 12 "Ginger 1kg"])).
  left. reflexivity.
Defined.

(** ** Lines are decided one by one *)

Lemma emitted_withLines input ls :
  emitted (cart_lines_discounts_generate_run (withLines input ls)) =
  if hasProductDiscountClass input then decisionsOf ls else [].
Proof.
  destruct (hasProductDiscountClass input) eqn:He.
  - now rewrite emitted_run by (now rewrite hasProductDiscountClass_withLines).
  - now rewrite run_ineligible by (now rewrite hasProductDiscountClass_withLines).
Qed.

(** X5. The candidates of a cart are the candidates of its parts, in
    order: what one line receives does not depend on the other lines.
    Reordering the lines of the cart reorders the candidates and changes
    nothing else. *)
Theorem candidates_compose_over_the_cart :
  (forall input before after,
      emitted (cart_lines_discounts_generate_run (withLines input (before ++ after))) =
      (emitted (cart_lines_discounts_generate_run (withLines input before)) ++
       emitted (cart_lines_discounts_generate_run (withLines input after)))%list) /\
  (forall input ls ls',
      Permutation ls ls' ->
      Permutation (emitted (cart_lines_discounts_generate_run (withLines input ls)))
                  (emitted (cart_lines_discounts_generate_run (withLines input ls')))).
Proof.
  split.
  - intros input before after. rewrite !emitted_withLines.
    destruct (hasProductDiscountClass input); [apply decisionsOf_app | reflexivity].
  - intros input ls ls' Hp. rewrite !emitted_withLines.
    destruct (hasProductDiscountClass input); [|constructor].
    unfold decisionsOf. now apply Permutation_flat_map.
Qed.

(** Swapping the two lines of a cart swaps the two candidates. *)
Lemma candidates_compose_over_the_cart_witness :
  Permutation
    (emitted (cart_lines_discounts_generate_run
                (withLines (eligible [])
                           [titled "line-1" 6 "Ginger 500g"; titled "line-2" 12 "Ginger 1kg"])))
    (emitted (cart_lines_discounts_generate_run
                (withLines (eligible [])
                           [titled "line-2" 12 "Ginger 1kg"; titled "line-1" 6 "Ginger 500g"]))).
Proof.
  apply (proj2 candidates_compose_over_the_cart). apply perm_swap.
Defined.

(** X6. Quantities are never added up across lines: when no single line
    has a quantity of exactly 6 or 12 the result has no operation, whatever
    the quantities sum to. *)
Theorem quantities_are_not_pooled :
  forall input,
    (forall line, In line (cartLines input) ->
                  Input.quantity line <> 6%Z /\ Input.quantity line <> 12%Z) ->
    cart_lines_discounts_generate_run input = noOperations.
Proof.
  intros input H.
  destruct (hasProductDiscountClass input) eqn:He; [|now apply run_ineligible].
  rewrite (run_eligible _ He).
  replace (decisionsOf (cartLines input)) with (@nil Output.Candidate); [reflexivity|].
  symmetry. apply decisionsOf_nil_iff.
  induction (cartLines input) as [|l ls IH]; [reflexivity|].
  cbn [filter]. unfold qualifies at 1.
  destruct (lineDecision l) as [[size d]|] eqn:Hd.
  - apply lineDecision_inv in Hd. destruct Hd as (m & _ & _ & _ & Hc).
    apply calculateDiscount_Some_quantity in Hc.
    destruct (H l (or_introl eq_refl)). intuition congruence.
  - apply IH. intros line Hin. apply H. now right.
Qed.

(** Two lines of three boxes of 500g, and lines of five and seven boxes of
    1kg: six and twelve boxes in all, and no discount. *)
Lemma quantities_are_not_pooled_witness :
  cart_lines_discounts_generate_run
    (eligible [ titled "line-1" 3 "Ginger 500g"; titled "line-2" 3 "Oat 500g";
                titled "line-3" 5 "Ginger 1kg"; titled "line-4" 7 "Oat 1kg" ]) =
  noOperations.
Proof.
  apply quantities_are_not_pooled.
  intros line Hin. simpl in Hin.
  destruct Hin as [<- | [<- | [<- | [<- | []]]]]; simpl; lia.
Defined.

(** ** The order-level alternative *)

Lemma orderStep_decision total applied line :
  orderStep (total, applied) line =
  match lineDecision line with
  | Some (size, d) =>
      (total + amount d, (applied ++ [orderLabel (line, size, d)])%list)
  | None => (total, applied)
  end.
Proof.
  unfold orderStep, lineDecision.
  destruct (Input.merchandise line) as [m|]; [|reflexivity].
  destruct (Input.__typename m =? "ProductVariant")%string; cbn [negb]; [|reflexivity].
  destruct (getSizeFromVariant m) as [size|] eqn:Hs; [|reflexivity].
  rewrite (getSizeFromVariant_truthy _ _ Hs); cbn [negb].
  destruct (calculateDiscount size (Input.quantity line)); reflexivity.
Qed.

Lemma decidedLines_cons l ls :
  decidedLines (l :: ls) =
  (match lineDecision l with
   | Some (size, d) => [(l, size, d)]
   | None => []
   end ++ decidedLines ls)%list.
Proof. reflexivity. Qed.

Lemma fold_orderStep ls total applied :
  fold_left orderStep ls (total, applied) =
  (sumFrom total (map amountOf (decidedLines ls)),
   (applied ++ map orderLabel (decidedLines ls))%list).
Proof.
  revert total applied; induction ls as [|l ls IH]; intros total applied.
  - cbn. now rewrite app_nil_r.
  - cbn [fold_left]. rewrite orderStep_decision, decidedLines_cons.
    destruct (lineDecision l) as [[size d]|]; rewrite IH; cbn [app map];
      [|reflexivity].
    unfold sumFrom; cbn [fold_left amountOf]. now rewrite <- app_assoc.
Qed.

Lemma decidedLines_In ls e :
  In e (decidedLines ls) ->
  In (fst (fst e)) ls /\ lineDecision (fst (fst e)) = Some (snd (fst e), snd e).
Proof.
  unfold decidedLines. rewrite in_flat_map. intros (line & Hin & He).
  destruct (lineDecision line) as [[size d]|] eqn:E; [|contradiction].
  destruct He as [<- | []]. auto.
Qed.

Lemma decidedLines_positive ls e : In e (decidedLines ls) -> 0 < amountOf e.
Proof.
  intros H. apply decidedLines_In in H. destruct H as [_ H].
  destruct e as [[line size] d]. cbn in *. eapply lineDecision_positive, H.
Qed.

Lemma sumFrom_ge amounts :
  forall start,
    (forall a, In a amounts -> 0 < a) -> start <= sumFrom start amounts.
Proof.
  induction amounts as [|a amounts IH]; intros start H; unfold sumFrom; cbn [fold_left].
  - apply Qle_refl.
  - assert (Ha : 0 < a) by (apply H; now left).
    assert (Hrest : start + a <= sumFrom (start + a) amounts).
    { apply IH. intros b Hb. apply H. now right. }
    unfold sumFrom in Hrest. lra.
Qed.

Lemma sumFrom_gt amounts :
  forall start,
    amounts <> [] ->
    (forall a, In a amounts -> 0 < a) -> start < sumFrom start amounts.
Proof.
  destruct amounts as [|a amounts]; intros start Hne H; [contradiction|].
  unfold sumFrom; cbn [fold_left].
  assert (Ha : 0 < a) by (apply H; now left).
  assert (Hrest : start + a <= sumFrom (start + a) amounts).
  { apply sumFrom_ge. intros b Hb. apply H. now right. }
  unfold sumFrom in Hrest. lra.
Qed.

Lemma decidedLines_total_positive ls :
  decidedLines ls <> [] -> 0 < sumFrom 0 (map amountOf (decidedLines ls)).
Proof.
  intros Hne. apply sumFrom_gt.
  - destruct (decidedLines ls); [contradiction | discriminate].
  - intros a Ha. apply in_map_iff in Ha. destruct Ha as (e & <- & He).
    eapply decidedLines_positive, He.
Qed.

Lemma order_version_eligible input :
  hasOrderDiscountClass input = true ->
  cart_lines_discounts_generate_run_order_version input =
  match decidedLines (cartLines input) with
  | [] => noOrderOperations
  | ds =>
      orderBatch ("Bundle Deal: " ++ String.concat ", " (map orderLabel ds))
                 (toFixed 2 (sumFrom 0 (map amountOf ds)))
  end.
Proof.
  intros He. unfold cart_lines_discounts_generate_run_order_version.
  rewrite He; cbn [negb]. rewrite fold_orderStep; cbn [app].
  destruct (decidedLines (cartLines input)) as [|e ds] eqn:E; [reflexivity|].
  assert (Hpos : 0 < sumFrom 0 (map amountOf (e :: ds))).
  { rewrite <- E. apply decidedLines_total_positive. rewrite E. discriminate. }
  destruct (Qeq_bool (sumFrom 0 (map amountOf (e :: ds))) 0) eqn:Ez; [|reflexivity].
  apply Qeq_bool_iff in Ez. rewrite Ez in Hpos. now apply Qlt_irrefl in Hpos.
Qed.

(** X7. The order version returns no operation when the invocation does
    not declare "ORDER" or when no line is discounted.  Otherwise it
    returns one operation with strategy "FIRST" and a single candidate on
    the order subtotal, excluding no line, whose message lists the
    discounted lines in cart order after "Bundle Deal: " and whose amount
    is the positive running sum of their discount amounts. *)
Theorem order_version_result :
  forall input,
    (hasOrderDiscountClass input = false ->
     cart_lines_discounts_generate_run_order_version input = noOrderOperations) /\
    (hasOrderDiscountClass input = true ->
     decidedLines (cartLines input) = [] ->
     cart_lines_discounts_generate_run_order_version input = noOrderOperations) /\
    (hasOrderDiscountClass input = true ->
     decidedLines (cartLines input) <> [] ->
     cart_lines_discounts_generate_run_order_version input =
     orderBatch
       ("Bundle Deal: " ++
        String.concat ", " (map orderLabel (decidedLines (cartLines input))))
       (toFixed 2 (sumFrom 0 (map amountOf (decidedLines (cartLines input))))) /\
     0 < sumFrom 0 (map amountOf (decidedLines (cartLines input)))).
Proof.
  intros input. split; [|split].
  - intros He. unfold cart_lines_discounts_generate_run_order_version. now rewrite He.
  - intros He Hd. now rewrite (order_version_eligible _ He), Hd.
  - intros He Hd. split; [|now apply decidedLines_total_positive].
    rewrite (order_version_eligible _ He).
    destruct (decidedLines (cartLines input)); [contradiction | reflexivity].
Qed.

(** Six boxes of 500g, seven boxes of 500g and twelve boxes of 1kg under an
    order-class discount: one candidate of 24 + 168 = 192. *)
Lemma order_version_result_witness :
  cart_lines_discounts_generate_run_order_version
    (withClasses (eligible [titled "line-1" 6 "Ginger 500g"]) ["PRODUCT"]) =
  noOrderOperations /\
  cart_lines_discounts_generate_run_order_version
    (withClasses (eligible [titled "line-1" 7 "Ginger 500g"]) ["ORDER"]) =
  noOrderOperations /\
  cart_lines_discounts_generate_run_order_version
    (withClasses (eligible [ titled "line-1" 6 "Ginger 500g";
                             titled "line-2" 7 "Oat 500g";
                             titled "line-3" 12 "Ginger 1kg" ]) ["ORDER"]) =
  orderBatch "Bundle Deal: 6x 500g, 12x 1kg" "192.00".
Proof.
  split; [|split].
  - apply (proj1 (order_version_result _)). reflexivity.
  - apply (proj1 (proj2 (order_version_result _))); reflexivity.
  - apply (proj1 (proj2 (proj2 (order_version_result
             (withClasses (eligible [ titled "line-1" 6 "Ginger 500g";
                                      titled "line-2" 7 "Oat 500g";
                                      titled "line-3" 12 "Ginger 1kg" ]) ["ORDER"])))
             eq_refl ltac:(vm_compute; discriminate))).
Defined.

Lemma decisionsOf_decidedLines ls :
  decisionsOf ls = map candidateOf (decidedLines ls).
Proof.
  induction ls as [|l ls IH]; [reflexivity|].
  rewrite decisionsOf_cons, decidedLines_cons, map_app, <- IH.
  unfold decisionsOf at 1; cbn [flat_map].
  destruct (lineDecision l) as [[size d]|]; reflexivity.
Qed.

(** X8. The two entry points decide on the same lines.  On one cart, the
    candidates of the product version (declared "PRODUCT") and the single
    candidate of the order version (declared "ORDER") come from the same
    list of discounted lines: the order amount is the sum of the amounts
    the product candidates carry, its message has one label per product
    candidate, and one version returns no operation exactly when the other
    does. *)
Theorem order_and_product_versions_agree :
  forall input,
    emitted (cart_lines_discounts_generate_run (withClasses input ["PRODUCT"])) =
    map candidateOf (decidedLines (cartLines input)) /\
    cart_lines_discounts_generate_run_order_version (withClasses input ["ORDER"]) =
    match decidedLines (cartLines input) with
    | [] => noOrderOperations
    | ds =>
        orderBatch ("Bundle Deal: " ++ String.concat ", " (map orderLabel ds))
                   (toFixed 2 (sumFrom 0 (map amountOf ds)))
    end /\
    (cart_lines_discounts_generate_run_order_version (withClasses input ["ORDER"]) =
     noOrderOperations <->
     cart_lines_discounts_generate_run (withClasses input ["PRODUCT"]) = noOperations).
Proof.
  intros input.
  assert (Hp : cart_lines_discounts_generate_run (withClasses input ["PRODUCT"]) =
               match decisionsOf (cartLines input) with
               | [] => noOperations
               | _ :: _ => batch (decisionsOf (cartLines input))
               end) by (now rewrite run_eligible).
  assert (Ho : cart_lines_discounts_generate_run_order_version
                 (withClasses input ["ORDER"]) =
               match decidedLines (cartLines input) with
               | [] => noOrderOperations
               | ds =>
                   orderBatch ("Bundle Deal: " ++ String.concat ", " (map orderLabel ds))
                              (toFixed 2 (sumFrom 0 (map amountOf ds)))
               end) by (now rewrite order_version_eligible).
  split; [|split].
  - rewrite emitted_run by reflexivity. apply decisionsOf_decidedLines.
  - exact Ho.
  - rewrite Ho, Hp, decisionsOf_decidedLines.
    destruct (decidedLines (cartLines input)); cbn [map]; split; intros H;
      try reflexivity; discriminate.
Qed.

(** Six boxes of each size: candidates of 24.00 and 54.00 from the product
    version, one candidate of 78.00 from the order version. *)
Lemma order_and_product_versions_agree_witness :
  let input := eligible [titled "line-1" 6 "Ginger 500g"; titled "line-2" 6 "Ginger 1kg"] in
  emitted (cart_lines_discounts_generate_run (withClasses input ["PRODUCT"])) =
  [ candidate "line-1" "6x 500g Bundle Deal - Save R24" "24.00";
    candidate "line-2" "6x 1kg Bundle Deal - Save R54" "54.00" ] /\
  cart_lines_discounts_generate_run_order_version (withClasses input ["ORDER"]) =
  orderBatch "Bundle Deal: 6x 500g, 6x 1kg" "78.00".
Proof.
  intros input. split.
  - apply (proj1 (order_and_product_versions_agree input)).
  - apply (proj1 (proj2 (order_and_product_versions_agree input))).
Defined.

(** ** The first listing of the guide *)

Lemma guide_calculateDiscountIn_agrees config size q :
  (forall cfg t,
      lookup config size = Some cfg ->
      tierLookup (tiers cfg) q = Some t -> ~ t == 0) ->
  Guide.calculateDiscountIn config size q =
  option_map amount (calculateDiscountIn config size q).
Proof.
  intros H. unfold Guide.calculateDiscountIn, calculateDiscountIn.
  destruct (lookup config size) as [cfg|] eqn:Ec; [|reflexivity].
  destruct (tierLookup (tiers cfg) q) as [t|] eqn:Et; [|reflexivity].
  destruct (Qeq_bool t 0) eqn:Ez.
  - apply Qeq_bool_iff in Ez. now destruct (H cfg t eq_refl Et).
  - destruct (Qle_bool (unitPrice cfg * inject_Z q - t) 0); reflexivity.
Qed.

Lemma DISCOUNT_CONFIG_totals_nonzero size q cfg t :
  lookup DISCOUNT_CONFIG size = Some cfg ->
  tierLookup (tiers cfg) q = Some t -> ~ t == 0.
Proof.
  unfold DISCOUNT_CONFIG; cbn [lookup].
  destruct ("500g" =? size)%string;
    [|destruct ("1kg" =? size)%string; [|discriminate]];
    intros [= <-]; cbn [tiers tierLookup];
    destruct (6 =? q)%Z; try (intros [= <-]; discriminate);
    destruct (12 =? q)%Z; try (intros [= <-]; discriminate);
    discriminate.
Qed.

(** X9. The evaluator of the first listing and the evaluator of the source
    return the same amount, or both nothing, for every size and quantity.
    Over an arbitrary table they agree wherever the bundle total is not
    zero; a bundle total of zero is no tier for the first listing, while
    the source discounts the full price. *)
Theorem guide_calculateDiscount_agrees :
  (forall size q,
      Guide.calculateDiscount size q = option_map amount (calculateDiscount size q)) /\
  (forall config size q,
      (forall cfg t,
          lookup config size = Some cfg ->
          tierLookup (tiers cfg) q = Some t -> ~ t == 0) ->
      Guide.calculateDiscountIn config size q =
      option_map amount (calculateDiscountIn config size q)) /\
  (forall config size q cfg t,
      lookup config size = Some cfg ->
      tierLookup (tiers cfg) q = Some t ->
      t == 0 ->
      0 < unitPrice cfg * inject_Z q ->
      Guide.calculateDiscountIn config size q = None /\
      exists d, calculateDiscountIn config size q = Some d /\
                amount d == unitPrice cfg * inject_Z q).
Proof.
  split; [|split].
  - intros size q. apply guide_calculateDiscountIn_agrees.
    intros cfg t. apply DISCOUNT_CONFIG_totals_nonzero.
  - exact guide_calculateDiscountIn_agrees.
  - intros config size q cfg t Hc Ht Hz Hpos.
    unfold Guide.calculateDiscountIn, calculateDiscountIn. rewrite Hc, Ht.
    apply Qeq_bool_iff in Hz. rewrite Hz. split; [reflexivity|].
    apply Qeq_bool_iff in Hz.
    destruct (Qle_bool (unitPrice cfg * inject_Z q - t) 0) eqn:E.
    + apply Qle_bool_iff in E. rewrite Hz in E. lra.
    + eexists. split; [reflexivity|]. cbn [amount]. rewrite Hz. lra.
Qed.

(** A table that gives six boxes away: no tier for the first listing, the
    full price of 300 for the source. *)
Lemma guide_calculateDiscount_agrees_witness :
  Guide.calculateDiscountIn
    [("500g", {| unitPrice := 50; tiers := [(6%Z, 275%Q)] |})] "500g" 6 =
  option_map amount
    (calculateDiscountIn
       [("500g", {| unitPrice := 50; tiers := [(6%Z, 275%Q)] |})] "500g" 6) /\
  (Guide.calculateDiscountIn
     [("500g", {| unitPrice := 50; tiers := [(6%Z, 0%Q)] |})] "500g" 6 = None /\
   exists d,
     calculateDiscountIn
       [("500g", {| unitPrice := 50; tiers := [(6%Z, 0%Q)] |})] "500g" 6 = Some d /\
     amount d == 50 * inject_Z 6).
Proof.
  split.
  - apply (proj1 (proj2 guide_calculateDiscount_agrees)).
    intros cfg t [= <-]. cbn [tiers tierLookup].
    destruct (6 =? 6)%Z; [intros [= <-]; discriminate | discriminate].
  - apply (proj2 (proj2 guide_calculateDiscount_agrees)
             _ "500g" 6%Z {| unitPrice := 50; tiers := [(6%Z, 0%Q)] |} 0);
      reflexivity.
Defined.

Lemma firstMatch_empty : firstMatch SIZE_KEYWORDS "" = None.
Proof. reflexivity. Qed.

(** On a title that avoids "0.5kg" and "1000 g" the keyword loop of the
    source and the tests of the first listing decide alike. *)
Lemma guide_title_tests text :
  includes text "0.5kg" = false ->
  includes text "1000 g" = false ->
  firstMatch SIZE_KEYWORDS text =
  if includes text "500g" || includes text "500 g" then Some "500g"
  else if includes text "1kg" || includes text "1 kg" || includes text "1000g"
       then Some "1kg"
       else None.
Proof.
  intros H05 H1000. rewrite firstMatch_includes, H05, H1000.
  destruct (includes text "500g") eqn:E1; [reflexivity|].
  destruct (includes text "500gr") eqn:E2;
    [apply includes_500gr in E2; congruence|].
  destruct (includes text "500 g"); [reflexivity|].
  destruct (includes text "1kg"); [reflexivity|].
  destruct (includes text "1 kg"); [reflexivity|].
  destruct (includes text "1000g"); reflexivity.
Qed.

Lemma guide_title_agrees ty title :
  knownToGuide title ->
  getSizeFromVariant
    {| Input.__typename := ty; Input.title := title;
       Input.sku := None; Input.boxSize := None |} =
  Guide.getSizeFromVariant title.
Proof.
  intros H. rewrite getSizeFromVariant_waterfall.
  unfold tagSize, tagText, titleText, skuText;
    cbn [Input.boxSize Input.title Input.sku].
  change (toLowerCase "") with "". rewrite firstMatch_empty.
  destruct title as [t|]; [|reflexivity].
  destruct (H t eq_refl) as [H05 H1000].
  unfold Guide.getSizeFromVariant.
  destruct t as [|c t]; [reflexivity|]. cbn [truthy negb].
  rewrite (guide_title_tests _ H05 H1000).
  destruct (includes _ "500g" || includes _ "500 g"); [reflexivity|].
  destruct (includes _ "1kg" || includes _ "1 kg" || includes _ "1000g"); reflexivity.
Qed.

(** X10. On a variant that carries only a title, the classifier of the
    source returns what the title-only classifier of the first listing
    returns, unless the title uses one of the two spellings only the source
    knows, "0.5kg" and "1000 g".  A title the first listing reads as '500g'
    is read as '500g' by the source whenever the tag yields nothing. *)
Theorem guide_title_classifier_agrees :
  (forall ty title,
      knownToGuide title ->
      getSizeFromVariant
        {| Input.__typename := ty; Input.title := title;
           Input.sku := None; Input.boxSize := None |} =
      Guide.getSizeFromVariant title) /\
  (forall m,
      tagSize m = None ->
      Guide.getSizeFromVariant (Input.title m) = Some "500g" ->
      getSizeFromVariant m = Some "500g").
Proof.
  split; [exact guide_title_agrees|].
  intros m Htag Hg. rewrite getSizeFromVariant_waterfall, Htag.
  unfold titleText. unfold Guide.getSizeFromVariant in Hg.
  destruct (Input.title m) as [t|]; [|discriminate].
  destruct (negb (truthy t)); [discriminate|].
  rewrite firstMatch_includes.
  destruct (includes (toLowerCase t) "500g"); [reflexivity|].
  destruct (includes (toLowerCase t) "500 g"); [reflexivity|].
  cbn [orb] in Hg.
  destruct (includes _ "1kg" || includes _ "1 kg" || includes _ "1000g");
    discriminate.
Qed.

(** "Ginger 1 KG" is read alike by both; "Ginger 500 G" with a sku is read
    as '500g' by the source as by the first listing. *)
Lemma guide_title_classifier_agrees_witness :
  getSizeFromVariant (variant (Some "Ginger 1 KG") None None) =
  Guide.getSizeFromVariant (Some "Ginger 1 KG") /\
  getSizeFromVariant (variant (Some "Ginger 500 G") (Some "GN-1KG") None) = Some "500g".
Proof.
  split.
  - apply (proj1 guide_title_classifier_agrees "ProductVariant" (Some "Ginger 1 KG")).
    intros t [= <-]. split; reflexivity.
  - apply (proj2 guide_title_classifier_agrees); reflexivity.
Defined.

Lemma guide_processLine_throws cs line :
  Guide.processLine cs line = TypeError <-> Input.merchandise line = None.
Proof.
  unfold Guide.processLine.
  destruct (Input.merchandise line) as [m|]; [|now split].
  split; [|discriminate].
  destruct (negb (Input.__typename m =? "ProductVariant")%string); [discriminate|].
  destruct (Guide.getSizeFromVariant (Input.title m)) as [size|]; [|discriminate].
  destruct (Guide.calculateDiscount size (Input.quantity line)) as [a|]; [|discriminate].
  destruct (negb (Qeq_bool a 0) && negb (Qle_bool a 0)); discriminate.
Qed.

Lemma guide_processLines_throws lines :
  forall cs,
    Guide.processLines cs lines = TypeError <->
    exists line, In line lines /\ Input.merchandise line = None.
Proof.
  induction lines as [|l ls IH]; intros cs; cbn [Guide.processLines].
  - split; [discriminate | intros (line & [] & _)].
  - destruct (Guide.processLine cs l) as [cs'|] eqn:E.
    + rewrite IH. split.
      * intros (line & Hin & Hm). exists line. split; [now right | exact Hm].
      * intros (line & [<- | Hin] & Hm).
        -- apply (guide_processLine_throws cs) in Hm. congruence.
        -- now exists line.
    + split; [intros _ | reflexivity].
      exists l. split; [now left | now apply (guide_processLine_throws cs)].
Qed.

(** X11. The first listing of the guide throws exactly when the invocation
    carries no discount or no list of discount classes, or when it is
    eligible and either the cart is missing or some line of the cart has
    no merchandise.  Where the discount, the classes or the cart are
    missing the source returns no operation instead. *)
Theorem guide_run_throws_iff :
  forall input,
    (Guide.cart_lines_discounts_generate_run input = TypeError <->
     (Input.discount input = None \/
      (exists d, Input.discount input = Some d /\ Input.discountClasses d = None) \/
      (hasProductDiscountClass input = true /\
       (Input.cart input = None \/
        exists line, In line (cartLines input) /\ Input.merchandise line = None)))) /\
    (Input.discount input = None \/
     (exists d, Input.discount input = Some d /\ Input.discountClasses d = None) \/
     Input.cart input = None ->
     cart_lines_discounts_generate_run input = noOperations).
Proof.
  intros input. split.
  - unfold Guide.cart_lines_discounts_generate_run, hasProductDiscountClass, cartLines.
    destruct (Input.discount input) as [d|]; [|split; auto].
    destruct (Input.discountClasses d) as [classes|] eqn:Ec.
    + destruct (existsb _ classes); cbn [negb].
      * destruct (Input.cart input) as [c|].
        -- destruct (Guide.processLines [] (Input.lines c)) as [cs|] eqn:E.
           ++ split; [discriminate|].
              intros [H | [(d' & [= <-] & H) | (_ & [H | H])]]; try congruence.
              apply (guide_processLines_throws _ []) in H. congruence.
           ++ split; [intros _ | reflexivity].
              right; right. split; [reflexivity|]. right.
              now apply (guide_processLines_throws _ []).
        -- split; [intros _ | reflexivity]. right; right. auto.
      * split; [discriminate|].
        intros [H | [(d' & [= <-] & H) | (H & _)]]; congruence.
    + split; [intros _ | reflexivity]. right; left. now exists d.
  - intros [H | [(d & Hd & Hc) | H]].
    + apply run_ineligible. unfold hasProductDiscountClass. now rewrite H.
    + apply run_ineligible. unfold hasProductDiscountClass. now rewrite Hd, Hc.
    + destruct (hasProductDiscountClass input) eqn:He; [|now apply run_ineligible].
      rewrite (run_eligible _ He). unfold cartLines. now rewrite H.
Qed.

(** An eligible cart whose second line has no merchandise: the first
    listing throws. *)
Lemma guide_run_throws_iff_witness :
  Guide.cart_lines_discounts_generate_run
    (eligible [ titled "line-1" 6 "Ginger 500g";
                {| Input.id := "line-2"; Input.quantity := 1%Z;
                   Input.merchandise := None |} ]) = TypeError.
Proof.
  apply (proj2 (proj1 (guide_run_throws_iff _))).
  right; right. split; [reflexivity|]. right.
  eexists. split; [right; left; reflexivity | reflexivity].
Defined.







(** ** The metafield step of the guide *)

Lemma includes_self_eqb text kw :
  (text =? kw)%string = true -> includes text kw = true.
Proof.
  intros H. apply String.eqb_eq in H. subst text.
  apply includes_iff. exists "", "". simpl.
  induction kw as [|c kw IH]; simpl; [reflexivity | now rewrite <- IH].
Qed.

Lemma includes_or_eqb text kw :
  includes text kw || (text =? kw)%string = includes text kw.
Proof.
  destruct (includes text kw) eqn:E; [reflexivity|]. cbn [orb].
  destruct (text =? kw)%string eqn:Eq; [|reflexivity].
  apply includes_self_eqb in Eq. congruence.
Qed.

Lemma firstMatch_of_keyword text kw :
  In kw allKeywords -> includes text kw = true ->
  exists size, firstMatch SIZE_KEYWORDS text = Some size.
Proof.
  intros Hin Hinc.
  destruct (firstMatch SIZE_KEYWORDS text) as [size|] eqn:E; [now exists size|].
  apply firstMatch_None_iff in E. rewrite (E kw Hin) in Hinc. discriminate.
Qed.

Lemma includes_truthy text kw :
  truthy kw = true -> includes text kw = true -> truthy text = true.
Proof.
  intros Hk H. destruct text; [|reflexivity].
  destruct kw; [discriminate|]. discriminate H.
Qed.

Lemma truthy_toLowerCase v : truthy (toLowerCase v) = truthy v.
Proof. now destruct v. Qed.

Lemma metafield_title_text m :
  match Input.title m with
  | Some t => toLowerCase t
  | None => ""
  end = titleText m.
Proof. unfold titleText. now destruct (Input.title m). Qed.

Lemma SIZE_KEYWORDS_shape_all kw :
  In kw allKeywords -> startsNonSpace kw = true /\ endsNonSpace kw = true.
Proof.
  simpl. intros H.
  repeat (destruct H as [<- | H]; [split; reflexivity|]). contradiction.
Qed.

(** X13. The classifier of the metafield step and the classifier of the
    source.  Whatever variant the metafield step classifies, the source
    classifies too.  On a variant whose tag mentions "500g" or "1kg" the
    two return the same size, unless the tag also uses one of the
    spellings "500 g" and "0.5kg" that only the source reads in a tag.
    The comparisons [metaValue === '500g'] and [metaValue === '1kg'] of the
    metafield step never decide. *)
Theorem metafield_step_and_source :
  (forall m size,
      GuideMetafield.getSizeFromVariant m = Some size ->
      exists size', getSizeFromVariant m = Some size') /\
  (forall m mf,
      Input.boxSize m = Some mf ->
      includes (toLowerCase (Input.value mf)) "500g" = true \/
      includes (toLowerCase (Input.value mf)) "1kg" = true ->
      includes (toLowerCase (Input.value mf)) "500 g" = false ->
      includes (toLowerCase (Input.value mf)) "0.5kg" = false ->
      GuideMetafield.getSizeFromVariant m = getSizeFromVariant m) /\
  (forall text kw, includes text kw || (text =? kw)%string = includes text kw).
Proof.
  split; [|split; [|exact includes_or_eqb]].
  - intros m size H.
    assert (Htitle : forall kw, In kw allKeywords ->
                                includes (titleText m) kw = true ->
                                exists size', getSizeFromVariant m = Some size').
    { intros kw Hin Hinc. rewrite getSizeFromVariant_waterfall.
      destruct (tagSize m) as [s|]; [now exists s|].
      destruct (firstMatch_of_keyword _ _ Hin Hinc) as [s ->]. now exists s. }
    assert (Htag : forall text kw, tagText m = Some text -> In kw allKeywords ->
                                   includes text kw = true ->
                                   exists size', getSizeFromVariant m = Some size').
    { intros text kw Ht Hin Hinc. rewrite getSizeFromVariant_waterfall.
      unfold tagSize. rewrite Ht.
      destruct (firstMatch_of_keyword _ _ Hin Hinc) as [s ->]. now exists s. }
    assert (Hfrom : forall kw, In kw allKeywords ->
                               forall mf, Input.boxSize m = Some mf ->
                                          truthy (Input.value mf) = true ->
                                          includes (toLowerCase (Input.value mf)) kw = true ->
                                          exists size', getSizeFromVariant m = Some size').
    { intros kw Hin mf Hb Htr Hinc.
      apply (Htag (trim (toLowerCase (Input.value mf))) kw);
        [unfold tagText; now rewrite Hb, Htr | exact Hin |].
      destruct (SIZE_KEYWORDS_shape_all kw Hin) as [H1 H2].
      now rewrite includes_trim. }
    assert (Hfall :
              (if includes (titleText m) "500g" || includes (titleText m) "500 g"
               then Some "500g"
               else if includes (titleText m) "1kg" || includes (titleText m) "1 kg"
                    then Some "1kg" else None) = Some size ->
              exists size', getSizeFromVariant m = Some size').
    { intros Hf.
      destruct (includes (titleText m) "500g") eqn:T1.
      { apply (Htitle "500g"); [simpl; auto | exact T1]. }
      destruct (includes (titleText m) "500 g") eqn:T2.
      { apply (Htitle "500 g"); [simpl; auto | exact T2]. }
      destruct (includes (titleText m) "1kg") eqn:T3.
      { apply (Htitle "1kg"); [simpl; auto 10 | exact T3]. }
      destruct (includes (titleText m) "1 kg") eqn:T4.
      { apply (Htitle "1 kg"); [simpl; auto 10 | exact T4]. }
      discriminate. }
    unfold GuideMetafield.getSizeFromVariant in H.
    rewrite metafield_title_text in H.
    destruct (Input.boxSize m) as [mf|] eqn:Hb; [|exact (Hfall H)].
    destruct (truthy (Input.value mf)) eqn:Htr; [|exact (Hfall H)].
    rewrite !includes_or_eqb in H.
    destruct (includes (toLowerCase (Input.value mf)) "500g") eqn:E5.
    { apply (Hfrom "500g" ltac:(simpl; auto) mf eq_refl Htr E5). }
    destruct (includes (toLowerCase (Input.value mf)) "1kg") eqn:E1.
    { apply (Hfrom "1kg" ltac:(simpl; auto 10) mf eq_refl Htr E1). }
    exact (Hfall H).
  - intros m mf Hb Hor H500s H05.
    assert (Htr : truthy (Input.value mf) = true).
    { rewrite <- truthy_toLowerCase.
      destruct Hor as [H | H]; eapply includes_truthy; try exact H; reflexivity. }
    rewrite getSizeFromVariant_waterfall.
    unfold GuideMetafield.getSizeFromVariant, tagSize, tagText.
    rewrite Hb, Htr, !includes_or_eqb.
    rewrite (firstMatch_trim SIZE_KEYWORDS _ SIZE_KEYWORDS_shape).
    rewrite firstMatch_includes, H500s, H05.
    destruct (includes (toLowerCase (Input.value mf)) "500g") eqn:E5; [reflexivity|].
    destruct (includes (toLowerCase (Input.value mf)) "500gr") eqn:E5r;
      [apply includes_500gr in E5r; congruence|].
    destruct Hor as [H | H]; [discriminate|]. now rewrite H.
Qed.

(** A title the metafield step reads as '1kg' is classified by the source;
    a tag "Box 1KG" is read alike by both. *)
Lemma metafield_step_and_source_witness :
  (exists size', getSizeFromVariant (variant (Some "Ginger 1 kg") (Some "GN") None) =
                 Some size') /\
  GuideMetafield.getSizeFromVariant (variant (Some "Ginger 500g") None (Some "Box 1KG")) =
  getSizeFromVariant (variant (Some "Ginger 500g") None (Some "Box 1KG")).
Proof.
  split.
  - apply (proj1 metafield_step_and_source _ "1kg"). reflexivity.
  - apply (proj1 (proj2 metafield_step_and_source) _ {| Input.value := "Box 1KG" |});
      [reflexivity | right; reflexivity | reflexivity | reflexivity].
Defined.

(** ** The customisations the guide proposes *)

Lemma processLine_config_ext config config' acc line :
  (forall m size,
      Input.merchandise line = Some m ->
      getSizeFromVariant m = Some size ->
      calculateDiscountIn config size (Input.quantity line) =
      calculateDiscountIn config' size (Input.quantity line)) ->
  processLine config SIZE_KEYWORDS acc line =
  processLine config' SIZE_KEYWORDS acc line.
Proof.
  intros H. unfold processLine.
  destruct (Input.merchandise line) as [m|]; [|reflexivity].
  destruct (negb (Input.__typename m =? "ProductVariant")%string); [reflexivity|].
  change (getSizeFromVariantIn SIZE_KEYWORDS m) with (getSizeFromVariant m).
  destruct (getSizeFromVariant m) as [size|] eqn:Hs; [|reflexivity].
  now rewrite (H m size eq_refl Hs).
Qed.

Lemma run_config_ext config config' input :
  (forall line m size,
      In line (cartLines input) ->
      Input.merchandise line = Some m ->
      getSizeFromVariant m = Some size ->
      calculateDiscountIn config size (Input.quantity line) =
      calculateDiscountIn config' size (Input.quantity line)) ->
  cart_lines_discounts_generate_run_in config SIZE_KEYWORDS input =
  cart_lines_discounts_generate_run_in config' SIZE_KEYWORDS input.
Proof.
  intros H. unfold cart_lines_discounts_generate_run_in.
  destruct (negb (hasProductDiscountClass input)); [reflexivity|].
  assert (Hfold : forall ls acc,
             (forall line, In line ls -> In line (cartLines input)) ->
             fold_left (processLine config SIZE_KEYWORDS) ls acc =
             fold_left (processLine config' SIZE_KEYWORDS) ls acc).
  { induction ls as [|l ls IH]; intros acc Hsub; [reflexivity|].
    cbn [fold_left]. rewrite (processLine_config_ext config config' acc l).
    - apply IH. intros line Hin. apply Hsub. now right.
    - intros m size Hm Hs. apply (H l m size); auto. apply Hsub. now left. }
  now rewrite Hfold.
Qed.

(** X14. A size that is added to [DISCOUNT_CONFIG] alone, as the guide
    proposes for 2kg, is never discounted: the evaluator knows the new
    size, but no variant is ever classified as it, so the function returns
    what it returned before on every input. *)
Theorem size_without_keywords_is_never_discounted :
  (forall more input,
      (forall size, In size (map fst more) -> ~ In size (map fst DISCOUNT_CONFIG)) ->
      cart_lines_discounts_generate_run_in (DISCOUNT_CONFIG ++ more) SIZE_KEYWORDS input =
      cart_lines_discounts_generate_run input) /\
  (forall input,
      cart_lines_discounts_generate_run_in (configWith2kg DISCOUNT_CONFIG)
                                           SIZE_KEYWORDS input =
      cart_lines_discounts_generate_run input) /\
  (exists d, calculateDiscountIn (configWith2kg DISCOUNT_CONFIG) "2kg" 6 = Some d /\
             amount d = 180) /\
  (forall m, getSizeFromVariant m <> Some "2kg").
Proof.
  assert (Hgen : forall more input,
             cart_lines_discounts_generate_run_in (DISCOUNT_CONFIG ++ more)
                                                  SIZE_KEYWORDS input =
             cart_lines_discounts_generate_run input).
  { intros more input. apply run_config_ext.
    intros line m size _ _ Hs.
    destruct (getSizeFromVariant_cases _ _ Hs) as [-> | ->]; reflexivity. }
  split; [|split; [|split]].
  - intros more input _. apply Hgen.
  - intros input. apply Hgen.
  - eexists. split; reflexivity.
  - intros m H. destruct (getSizeFromVariant_cases _ _ H); discriminate.
Qed.

(** With the 2kg entry added, six boxes titled "Ginger 2kg" still get
    nothing. *)
Lemma size_without_keywords_is_never_discounted_witness :
  cart_lines_discounts_generate_run_in
    (DISCOUNT_CONFIG ++ [ENTRY_2KG]) SIZE_KEYWORDS
    (eligible [titled "line-1" 6 "Ginger 2kg"; titled "line-2" 6 "Ginger 1kg"]) =
  cart_lines_discounts_generate_run
    (eligible [titled "line-1" 6 "Ginger 2kg"; titled "line-2" 6 "Ginger 1kg"]).
Proof.
  apply (proj1 size_without_keywords_is_never_discounted).
  intros size [<- | []]. simpl. intuition discriminate.
Defined.

Lemma tier24_frame rest size q :
  size <> "500g" \/ q <> 24%Z ->
  calculateDiscountIn (configWithTier24 rest) size q =
  calculateDiscountIn (("500g", {| unitPrice := 59;
                                   tiers := [(6%Z, 330%Q); (12%Z, 600%Q)] |}) :: rest)
                      size q.
Proof.
  intros H. unfold calculateDiscountIn, configWithTier24, ENTRY_500G_WITH_24;
    cbn [lookup].
  destruct (String.eqb_spec "500g" size) as [<-|_]; [|reflexivity].
  cbn [tiers tierLookup].
  destruct (6 =? q)%Z; [reflexivity|].
  destruct (12 =? q)%Z; [reflexivity|].
  destruct (Z.eqb_spec 24 q) as [<-|_]; [|reflexivity].
  destruct H; congruence.
Qed.

(** X15. The tier for 24 boxes of 500g that the guide proposes changes the
    evaluation at size '500g' and quantity 24 only, where the discount
    becomes 59 x 24 - 1100 = 316; at every other size or quantity the
    evaluator, and on carts without a line of 24 the whole function,
    return what they returned before. *)
Theorem tier_24_changes_one_quantity :
  (forall rest size q,
      size <> "500g" \/ q <> 24%Z ->
      calculateDiscountIn (configWithTier24 rest) size q =
      calculateDiscountIn
        (("500g", {| unitPrice := 59; tiers := [(6%Z, 330%Q); (12%Z, 600%Q)] |}) :: rest)
        size q) /\
  (forall size q,
      size <> "500g" \/ q <> 24%Z ->
      calculateDiscountIn (configWithTier24 (tl DISCOUNT_CONFIG)) size q =
      calculateDiscount size q) /\
  (forall rest,
      calculateDiscountIn (configWithTier24 rest) "500g" 24 =
      Some {| amount := 316; fullPrice := 1416; tierPrice := 1100; savings := 316 |}) /\
  (forall input,
      (forall line, In line (cartLines input) -> Input.quantity line <> 24%Z) ->
      cart_lines_discounts_generate_run_in (configWithTier24 (tl DISCOUNT_CONFIG))
                                           SIZE_KEYWORDS input =
      cart_lines_discounts_generate_run input).
Proof.
  split; [exact tier24_frame | split; [|split]].
  - intros size q H. apply (tier24_frame (tl DISCOUNT_CONFIG) size q H).
  - intros rest. reflexivity.
  - intros input H. apply run_config_ext.
    intros line m size Hin _ _.
    apply (tier24_frame (tl DISCOUNT_CONFIG)). right. now apply H.
Qed.

(** With the tier for 24 added, twelve boxes of 500g are discounted as
    before. *)
Lemma tier_24_changes_one_quantity_witness :
  calculateDiscountIn (configWithTier24 (tl DISCOUNT_CONFIG)) "500g" 12 =
  calculateDiscount "500g" 12 /\
  cart_lines_discounts_generate_run_in
    (configWithTier24 (tl DISCOUNT_CONFIG)) SIZE_KEYWORDS
    (eligible [titled "line-1" 12 "Ginger 500g"; titled "line-2" 23 "Oat 500g"]) =
  cart_lines_discounts_generate_run
    (eligible [titled "line-1" 12 "Ginger 500g"; titled "line-2" 23 "Oat 500g"]).
Proof.
  split.
  - apply (proj1 (proj2 tier_24_changes_one_quantity)). right. discriminate.
  - apply (proj2 (proj2 (proj2 tier_24_changes_one_quantity))).
    intros line [<- | [<- | []]]; discriminate.
Defined.
